(** * PoMiDAQ: the Miniscope acquisition controller

  A shallow embedding of [src/libminiscope/miniscope.cpp]: the private data of the
  controller ([MiniScopeData]), its public operations ([MiniScope::connect], [run],
  [stop], [startRecording], the setters, [currentFrame]) and the capture loop
  ([MiniScope::captureThread]), followed by the properties of the acquisition state
  machine that the specification states.

  The camera ([cv::VideoCapture]) and the video encoder ([VideoWriter]) are
  collaborators of this code.  What they answer (whether the device opens, whether a
  frame is grabbed and retrieved, what the clock reads) is an input of the operation
  that asks; what is sent to them is appended to a log kept next to the controller's
  data, so that statements about "what the code sends" are statements about that log.

  The controller runs two threads, the caller's and the capture thread.  The embedding
  interleaves them at the granularity of one pass of the capture loop: a pass (the
  test of [running] and one execution of the loop body) is one step, and every public
  operation is one step. *)

From Stdlib Require Import ZArith List Bool String Lia Floats DecimalString.
Import ListNotations.
Local Open Scope Z_scope.

(** ** Numbers as the code has them *)

Module Num.

(** [static_cast<double>(n)] for an integer [n]: exact for every 32-bit [int] and
    correctly rounded for a 64-bit count. *)
Definition to_double (n : Z) : float :=
  if n <? 0 then PrimFloat.opp (PrimFloat.of_uint63 (Uint63.of_Z (- n)))
  else PrimFloat.of_uint63 (Uint63.of_Z n).

(** The integer part of a finite double (truncation toward zero); [None] for an
    infinity or a NaN. *)
Definition truncate (f : float) : option Z :=
  match Prim2SF f with
  | S754_zero _ => Some 0
  | S754_finite neg m e =>
      let mag := if 0 <=? e then Z.shiftl (Z.pos m) e else Z.shiftr (Z.pos m) (- e) in
      Some (if neg then - mag else mag)
  | S754_infinity _ | S754_nan => None
  end.

(** [static_cast<uint>(f)]: the truncated value when an [unsigned int] holds it.  C++
    leaves every other conversion undefined: [None]. *)
Definition to_uint (f : float) : option Z :=
  match truncate f with
  | Some z => if (0 <=? z) && (z <? 2 ^ 32) then Some z else None
  | None => None
  end.

(** [size_t] arithmetic wraps at [2^64]. *)
Definition size_t_succ (n : Z) : Z := (n + 1) mod 2 ^ 64.

(** The decimal text of an integer, as [operator<<] and [boost::format] print it. *)
Definition show (n : Z) : string := NilEmpty.string_of_int (Z.to_int n).

End Num.

(** ** OpenCV images *)

Module Cv.

(** An 8-bit image: one list of [rows * cols] samples per channel.  A frame of the
    Miniscope has the three channels blue, green and red, in that order. *)
Record Mat := { rows : Z; cols : Z; planes : list (list Z) }.

(** [cv::Mat()], the empty matrix. *)
Definition empty : Mat := {| rows := 0; cols := 0; planes := [] |}.

Definition channels (m : Mat) : Z := Z.of_nat (List.length (planes m)).

(** [cv::Mat::zeros(rows, cols, CV_8UC1)]. *)
Definition zeros (r c : Z) : Mat :=
  {| rows := r; cols := c; planes := [repeat 0 (Z.to_nat (r * c))] |}.

Definition plane (m : Mat) (i : nat) : Mat :=
  match nth_error (planes m) i with
  | Some p => {| rows := rows m; cols := cols m; planes := [p] |}
  | None => empty
  end.

(** [cv::split(m, mv)] into an array [mv] of three matrices. *)
Definition split (m : Mat) : Mat * Mat * Mat := (plane m 0, plane m 1, plane m 2).

(** [cv::merge(mv, 3, dst)]: the channels of the three matrices side by side, with the
    size of the first. *)
Definition merge (mv : Mat * Mat * Mat) : Mat :=
  let '(b, g, r) := mv in
  {| rows := rows b; cols := cols b; planes := planes b ++ planes g ++ planes r |}.

(** The property slots of [cv::VideoCapture] that the Miniscope uses as command
    channels. *)
Inductive CapProp : Type :=
| CV_CAP_PROP_BRIGHTNESS
| CV_CAP_PROP_GAIN
| CV_CAP_PROP_HUE
| CV_CAP_PROP_SATURATION.

(** [cv::VideoCapture]: whether a device is open, and every [set(prop, value)] issued
    so far, oldest first. *)
Record VideoCapture := { isOpened : bool; sent : list (CapProp * float) }.

Definition closed : VideoCapture := {| isOpened := false; sent := [] |}.

(** [cam.open(id)]; [ok] is what the driver answers. *)
Definition open (ok : bool) (c : VideoCapture) : VideoCapture :=
  {| isOpened := ok; sent := sent c |}.

Definition release (c : VideoCapture) : VideoCapture :=
  {| isOpened := false; sent := sent c |}.

Definition set (p : CapProp) (v : float) (c : VideoCapture) : VideoCapture :=
  {| isOpened := isOpened c; sent := sent c ++ [(p, v)] |}.

(** What [cam.retrieve(frame)] did: stored a frame and returned true, returned false,
    or raised a [cv::Exception] with the given text. *)
Inductive Retrieved : Type :=
| Frame (frame : Mat)
| NoFrame
| Raised (what : string).

End Cv.

(** ** [boost::circular_buffer] *)

Module CircularBuffer.

Record t (A : Type) := { capacity : nat; elems : list A }.
Arguments capacity {A} _.
Arguments elems {A} _.

(** [circular_buffer<A>(n)]: empty, with room for [n] elements. *)
Definition make {A} (n : nat) : t A := {| capacity := n; elems := [] |}.

Definition size {A} (b : t A) : nat := List.length (elems b).

(** [push_back]: a full buffer overwrites its front element. *)
Definition push_back {A} (x : A) (b : t A) : t A :=
  if (capacity b =? 0)%nat then b
  else if (size b <? capacity b)%nat then {| capacity := capacity b; elems := elems b ++ [x] |}
  else {| capacity := capacity b; elems := tl (elems b) ++ [x] |}.

Definition front {A} (b : t A) : option A := hd_error (elems b).

Definition pop_front {A} (b : t A) : t A :=
  {| capacity := capacity b; elems := tl (elems b) |}.

End CircularBuffer.

(** ** The video encoder *)

Module Recorder.

(** The codecs and containers the controller can be set to.  The constructor picks
    VP9 in a Matroska file; the others are told apart by a number. *)
Inductive VideoCodec : Type := VP9 | OtherCodec (id : nat).
Inductive VideoContainer : Type := Matroska | OtherContainer (id : nat).

(** Modelled from the spec: the [VideoWriter] class ([videowriter.h]) is not among
    the sources.  It is the spec's Recorder: [initialize(path, width, height, fps,
    isColor)] may fail, [encodeFrame(frame)], [finalize()], and [initialized()] tells
    whether [initialize] has succeeded on this object. *)
Record VideoWriter := { initialized : bool }.

Definition fresh : VideoWriter := {| initialized := false |}.

(** The calls the capture loop makes on its [VideoWriter], as they reach it. *)
Inductive Call : Type :=
| SetCodec (c : VideoCodec)
| SetContainer (c : VideoContainer)
| SetLossless (b : bool)
| Initialize (fname : string) (width height fps : Z) (color : bool) (ok : bool)
| EncodeFrame (frame : Cv.Mat)
| Finalize.

Definition is_initialize (c : Call) : bool :=
  match c with Initialize _ _ _ _ _ _ => true | _ => false end.
Definition is_encode (c : Call) : bool :=
  match c with EncodeFrame _ => true | _ => false end.
Definition is_finalize (c : Call) : bool :=
  match c with Finalize => true | _ => false end.

End Recorder.

(** ** [MiniScopeData] *)

Module MiniScopeData.
Import Cv Recorder.

(** The local variables of [captureThread] that live across passes of its loop, and
    whether the function has returned. *)
Record CaptureThread := {
  currentTime : Z;          (* clock readings, in nanoseconds *)
  previousTime : Z;
  vwriter : VideoWriter;
  recordFrames : bool;
  finished : bool
}.

(** A line written to [std::cout] or [std::cerr], or handed to the message callback. *)
Inductive Output : Type :=
| Cout (msg : string)
| Cerr (msg : string)
| Callback (msg : string).

Record t := {
  thread : option CaptureThread;     (* [std::thread *], [None] for [nullptr] *)
  cam : VideoCapture;
  scopeCamId : Z;
  exposure : Z;
  gain : Z;
  excitation : Z;
  fps : Z;
  excitationX10 : bool;
  videoFname : string;
  minFluor : float;
  maxFluor : float;
  minFluorDisplay : Z;
  maxFluorDisplay : Z;
  connected : bool;
  running : bool;
  recording : bool;
  failed : bool;
  checkRecTrigger : bool;
  recordStart : Z;
  droppedFramesCount : Z;            (* [std::atomic<size_t>] *)
  currentFPS : option Z;             (* [None]: not a determined value *)
  frameRing : CircularBuffer.t Mat;
  onMessageCallback : bool;          (* whether a callback is installed *)
  useColor : bool;
  showRed : bool;
  showGreen : bool;
  showBlue : bool;
  videoCodec : VideoCodec;
  videoContainer : VideoContainer;
  recordLossless : bool;
  (* Not fields of the class: what the code has written and sent so far. *)
  console : list Output;
  recorderCalls : list Recorder.Call;
  (* Ghost counter: the passes of the capture loop that reached the recording step
     with [recording()] true, that is, the frames processed while recording. *)
  recordedPasses : nat
}.


(** Field updates.  Each takes the record apart, its fields bound under their own names
    in the order of the declaration, and rebuilds it with the new value in the place of
    the field it replaces. *)

Definition set_thread (v : option CaptureThread) (d : t) : t :=
  let 'Build_t thread cam scopeCamId exposure gain excitation fps excitationX10 videoFname
    minFluor maxFluor minFluorDisplay maxFluorDisplay connected running recording failed
    checkRecTrigger recordStart droppedFramesCount currentFPS frameRing onMessageCallback
    useColor showRed showGreen showBlue videoCodec videoContainer recordLossless console
    recorderCalls recordedPasses := d in
  Build_t v cam scopeCamId exposure gain excitation fps excitationX10 videoFname minFluor
    maxFluor minFluorDisplay maxFluorDisplay connected running recording failed
    checkRecTrigger recordStart droppedFramesCount currentFPS frameRing onMessageCallback
    useColor showRed showGreen showBlue videoCodec videoContainer recordLossless console
    recorderCalls recordedPasses.

Definition set_cam (v : VideoCapture) (d : t) : t :=
  let 'Build_t thread cam scopeCamId exposure gain excitation fps excitationX10 videoFname
    minFluor maxFluor minFluorDisplay maxFluorDisplay connected running recording failed
    checkRecTrigger recordStart droppedFramesCount currentFPS frameRing onMessageCallback
    useColor showRed showGreen showBlue videoCodec videoContainer recordLossless console
    recorderCalls recordedPasses := d in
  Build_t thread v scopeCamId exposure gain excitation fps excitationX10 videoFname minFluor
    maxFluor minFluorDisplay maxFluorDisplay connected running recording failed
    checkRecTrigger recordStart droppedFramesCount currentFPS frameRing onMessageCallback
    useColor showRed showGreen showBlue videoCodec videoContainer recordLossless console
    recorderCalls recordedPasses.

Definition set_scopeCamId (v : Z) (d : t) : t :=
  let 'Build_t thread cam scopeCamId exposure gain excitation fps excitationX10 videoFname
    minFluor maxFluor minFluorDisplay maxFluorDisplay connected running recording failed
    checkRecTrigger recordStart droppedFramesCount currentFPS frameRing onMessageCallback
    useColor showRed showGreen showBlue videoCodec videoContainer recordLossless console
    recorderCalls recordedPasses := d in
  Build_t thread cam v exposure gain excitation fps excitationX10 videoFname minFluor
    maxFluor minFluorDisplay maxFluorDisplay connected running recording failed
    checkRecTrigger recordStart droppedFramesCount currentFPS frameRing onMessageCallback
    useColor showRed showGreen showBlue videoCodec videoContainer recordLossless console
    recorderCalls recordedPasses.

Definition set_exposure (v : Z) (d : t) : t :=
  let 'Build_t thread cam scopeCamId exposure gain excitation fps excitationX10 videoFname
    minFluor maxFluor minFluorDisplay maxFluorDisplay connected running recording failed
    checkRecTrigger recordStart droppedFramesCount currentFPS frameRing onMessageCallback
    useColor showRed showGreen showBlue videoCodec videoContainer recordLossless console
    recorderCalls recordedPasses := d in
  Build_t thread cam scopeCamId v gain excitation fps excitationX10 videoFname minFluor
    maxFluor minFluorDisplay maxFluorDisplay connected running recording failed
    checkRecTrigger recordStart droppedFramesCount currentFPS frameRing onMessageCallback
    useColor showRed showGreen showBlue videoCodec videoContainer recordLossless console
    recorderCalls recordedPasses.

Definition set_gain (v : Z) (d : t) : t :=
  let 'Build_t thread cam scopeCamId exposure gain excitation fps excitationX10 videoFname
    minFluor maxFluor minFluorDisplay maxFluorDisplay connected running recording failed
    checkRecTrigger recordStart droppedFramesCount currentFPS frameRing onMessageCallback
    useColor showRed showGreen showBlue videoCodec videoContainer recordLossless console
    recorderCalls recordedPasses := d in
  Build_t thread cam scopeCamId exposure v excitation fps excitationX10 videoFname minFluor
    maxFluor minFluorDisplay maxFluorDisplay connected running recording failed
    checkRecTrigger recordStart droppedFramesCount currentFPS frameRing onMessageCallback
    useColor showRed showGreen showBlue videoCodec videoContainer recordLossless console
    recorderCalls recordedPasses.

Definition set_excitation (v : Z) (d : t) : t :=
  let 'Build_t thread cam scopeCamId exposure gain excitation fps excitationX10 videoFname
    minFluor maxFluor minFluorDisplay maxFluorDisplay connected running recording failed
    checkRecTrigger recordStart droppedFramesCount currentFPS frameRing onMessageCallback
    useColor showRed showGreen showBlue videoCodec videoContainer recordLossless console
    recorderCalls recordedPasses := d in
  Build_t thread cam scopeCamId exposure gain v fps excitationX10 videoFname minFluor
    maxFluor minFluorDisplay maxFluorDisplay connected running recording failed
    checkRecTrigger recordStart droppedFramesCount currentFPS frameRing onMessageCallback
    useColor showRed showGreen showBlue videoCodec videoContainer recordLossless console
    recorderCalls recordedPasses.

Definition set_videoFname (v : string) (d : t) : t :=
  let 'Build_t thread cam scopeCamId exposure gain excitation fps excitationX10 videoFname
    minFluor maxFluor minFluorDisplay maxFluorDisplay connected running recording failed
    checkRecTrigger recordStart droppedFramesCount currentFPS frameRing onMessageCallback
    useColor showRed showGreen showBlue videoCodec videoContainer recordLossless console
    recorderCalls recordedPasses := d in
  Build_t thread cam scopeCamId exposure gain excitation fps excitationX10 v minFluor
    maxFluor minFluorDisplay maxFluorDisplay connected running recording failed
    checkRecTrigger recordStart droppedFramesCount currentFPS frameRing onMessageCallback
    useColor showRed showGreen showBlue videoCodec videoContainer recordLossless console
    recorderCalls recordedPasses.

Definition set_connected (v : bool) (d : t) : t :=
  let 'Build_t thread cam scopeCamId exposure gain excitation fps excitationX10 videoFname
    minFluor maxFluor minFluorDisplay maxFluorDisplay connected running recording failed
    checkRecTrigger recordStart droppedFramesCount currentFPS frameRing onMessageCallback
    useColor showRed showGreen showBlue videoCodec videoContainer recordLossless console
    recorderCalls recordedPasses := d in
  Build_t thread cam scopeCamId exposure gain excitation fps excitationX10 videoFname
    minFluor maxFluor minFluorDisplay maxFluorDisplay v running recording failed
    checkRecTrigger recordStart droppedFramesCount currentFPS frameRing onMessageCallback
    useColor showRed showGreen showBlue videoCodec videoContainer recordLossless console
    recorderCalls recordedPasses.

Definition set_running (v : bool) (d : t) : t :=
  let 'Build_t thread cam scopeCamId exposure gain excitation fps excitationX10 videoFname
    minFluor maxFluor minFluorDisplay maxFluorDisplay connected running recording failed
    checkRecTrigger recordStart droppedFramesCount currentFPS frameRing onMessageCallback
    useColor showRed showGreen showBlue videoCodec videoContainer recordLossless console
    recorderCalls recordedPasses := d in
  Build_t thread cam scopeCamId exposure gain excitation fps excitationX10 videoFname
    minFluor maxFluor minFluorDisplay maxFluorDisplay connected v recording failed
    checkRecTrigger recordStart droppedFramesCount currentFPS frameRing onMessageCallback
    useColor showRed showGreen showBlue videoCodec videoContainer recordLossless console
    recorderCalls recordedPasses.

Definition set_recording (v : bool) (d : t) : t :=
  let 'Build_t thread cam scopeCamId exposure gain excitation fps excitationX10 videoFname
    minFluor maxFluor minFluorDisplay maxFluorDisplay connected running recording failed
    checkRecTrigger recordStart droppedFramesCount currentFPS frameRing onMessageCallback
    useColor showRed showGreen showBlue videoCodec videoContainer recordLossless console
    recorderCalls recordedPasses := d in
  Build_t thread cam scopeCamId exposure gain excitation fps excitationX10 videoFname
    minFluor maxFluor minFluorDisplay maxFluorDisplay connected running v failed
    checkRecTrigger recordStart droppedFramesCount currentFPS frameRing onMessageCallback
    useColor showRed showGreen showBlue videoCodec videoContainer recordLossless console
    recorderCalls recordedPasses.

Definition set_failed (v : bool) (d : t) : t :=
  let 'Build_t thread cam scopeCamId exposure gain excitation fps excitationX10 videoFname
    minFluor maxFluor minFluorDisplay maxFluorDisplay connected running recording failed
    checkRecTrigger recordStart droppedFramesCount currentFPS frameRing onMessageCallback
    useColor showRed showGreen showBlue videoCodec videoContainer recordLossless console
    recorderCalls recordedPasses := d in
  Build_t thread cam scopeCamId exposure gain excitation fps excitationX10 videoFname
    minFluor maxFluor minFluorDisplay maxFluorDisplay connected running recording v
    checkRecTrigger recordStart droppedFramesCount currentFPS frameRing onMessageCallback
    useColor showRed showGreen showBlue videoCodec videoContainer recordLossless console
    recorderCalls recordedPasses.

Definition set_checkRecTrigger (v : bool) (d : t) : t :=
  let 'Build_t thread cam scopeCamId exposure gain excitation fps excitationX10 videoFname
    minFluor maxFluor minFluorDisplay maxFluorDisplay connected running recording failed
    checkRecTrigger recordStart droppedFramesCount currentFPS frameRing onMessageCallback
    useColor showRed showGreen showBlue videoCodec videoContainer recordLossless console
    recorderCalls recordedPasses := d in
  Build_t thread cam scopeCamId exposure gain excitation fps excitationX10 videoFname
    minFluor maxFluor minFluorDisplay maxFluorDisplay connected running recording failed v
    recordStart droppedFramesCount currentFPS frameRing onMessageCallback useColor showRed
    showGreen showBlue videoCodec videoContainer recordLossless console recorderCalls
    recordedPasses.

Definition set_recordStart (v : Z) (d : t) : t :=
  let 'Build_t thread cam scopeCamId exposure gain excitation fps excitationX10 videoFname
    minFluor maxFluor minFluorDisplay maxFluorDisplay connected running recording failed
    checkRecTrigger recordStart droppedFramesCount currentFPS frameRing onMessageCallback
    useColor showRed showGreen showBlue videoCodec videoContainer recordLossless console
    recorderCalls recordedPasses := d in
  Build_t thread cam scopeCamId exposure gain excitation fps excitationX10 videoFname
    minFluor maxFluor minFluorDisplay maxFluorDisplay connected running recording failed
    checkRecTrigger v droppedFramesCount currentFPS frameRing onMessageCallback useColor
    showRed showGreen showBlue videoCodec videoContainer recordLossless console
    recorderCalls recordedPasses.

Definition set_droppedFramesCount (v : Z) (d : t) : t :=
  let 'Build_t thread cam scopeCamId exposure gain excitation fps excitationX10 videoFname
    minFluor maxFluor minFluorDisplay maxFluorDisplay connected running recording failed
    checkRecTrigger recordStart droppedFramesCount currentFPS frameRing onMessageCallback
    useColor showRed showGreen showBlue videoCodec videoContainer recordLossless console
    recorderCalls recordedPasses := d in
  Build_t thread cam scopeCamId exposure gain excitation fps excitationX10 videoFname
    minFluor maxFluor minFluorDisplay maxFluorDisplay connected running recording failed
    checkRecTrigger recordStart v currentFPS frameRing onMessageCallback useColor showRed
    showGreen showBlue videoCodec videoContainer recordLossless console recorderCalls
    recordedPasses.

Definition set_currentFPS (v : option Z) (d : t) : t :=
  let 'Build_t thread cam scopeCamId exposure gain excitation fps excitationX10 videoFname
    minFluor maxFluor minFluorDisplay maxFluorDisplay connected running recording failed
    checkRecTrigger recordStart droppedFramesCount currentFPS frameRing onMessageCallback
    useColor showRed showGreen showBlue videoCodec videoContainer recordLossless console
    recorderCalls recordedPasses := d in
  Build_t thread cam scopeCamId exposure gain excitation fps excitationX10 videoFname
    minFluor maxFluor minFluorDisplay maxFluorDisplay connected running recording failed
    checkRecTrigger recordStart droppedFramesCount v frameRing onMessageCallback useColor
    showRed showGreen showBlue videoCodec videoContainer recordLossless console
    recorderCalls recordedPasses.

Definition set_frameRing (v : CircularBuffer.t Mat) (d : t) : t :=
  let 'Build_t thread cam scopeCamId exposure gain excitation fps excitationX10 videoFname
    minFluor maxFluor minFluorDisplay maxFluorDisplay connected running recording failed
    checkRecTrigger recordStart droppedFramesCount currentFPS frameRing onMessageCallback
    useColor showRed showGreen showBlue videoCodec videoContainer recordLossless console
    recorderCalls recordedPasses := d in
  Build_t thread cam scopeCamId exposure gain excitation fps excitationX10 videoFname
    minFluor maxFluor minFluorDisplay maxFluorDisplay connected running recording failed
    checkRecTrigger recordStart droppedFramesCount currentFPS v onMessageCallback useColor
    showRed showGreen showBlue videoCodec videoContainer recordLossless console
    recorderCalls recordedPasses.

Definition set_useColor (v : bool) (d : t) : t :=
  let 'Build_t thread cam scopeCamId exposure gain excitation fps excitationX10 videoFname
    minFluor maxFluor minFluorDisplay maxFluorDisplay connected running recording failed
    checkRecTrigger recordStart droppedFramesCount currentFPS frameRing onMessageCallback
    useColor showRed showGreen showBlue videoCodec videoContainer recordLossless console
    recorderCalls recordedPasses := d in
  Build_t thread cam scopeCamId exposure gain excitation fps excitationX10 videoFname
    minFluor maxFluor minFluorDisplay maxFluorDisplay connected running recording failed
    checkRecTrigger recordStart droppedFramesCount currentFPS frameRing onMessageCallback v
    showRed showGreen showBlue videoCodec videoContainer recordLossless console
    recorderCalls recordedPasses.

Definition set_console (v : list Output) (d : t) : t :=
  let 'Build_t thread cam scopeCamId exposure gain excitation fps excitationX10 videoFname
    minFluor maxFluor minFluorDisplay maxFluorDisplay connected running recording failed
    checkRecTrigger recordStart droppedFramesCount currentFPS frameRing onMessageCallback
    useColor showRed showGreen showBlue videoCodec videoContainer recordLossless console
    recorderCalls recordedPasses := d in
  Build_t thread cam scopeCamId exposure gain excitation fps excitationX10 videoFname
    minFluor maxFluor minFluorDisplay maxFluorDisplay connected running recording failed
    checkRecTrigger recordStart droppedFramesCount currentFPS frameRing onMessageCallback
    useColor showRed showGreen showBlue videoCodec videoContainer recordLossless v
    recorderCalls recordedPasses.

Definition set_recorderCalls (v : list Recorder.Call) (d : t) : t :=
  let 'Build_t thread cam scopeCamId exposure gain excitation fps excitationX10 videoFname
    minFluor maxFluor minFluorDisplay maxFluorDisplay connected running recording failed
    checkRecTrigger recordStart droppedFramesCount currentFPS frameRing onMessageCallback
    useColor showRed showGreen showBlue videoCodec videoContainer recordLossless console
    recorderCalls recordedPasses := d in
  Build_t thread cam scopeCamId exposure gain excitation fps excitationX10 videoFname
    minFluor maxFluor minFluorDisplay maxFluorDisplay connected running recording failed
    checkRecTrigger recordStart droppedFramesCount currentFPS frameRing onMessageCallback
    useColor showRed showGreen showBlue videoCodec videoContainer recordLossless console v
    recordedPasses.

Definition set_recordedPasses (v : nat) (d : t) : t :=
  let 'Build_t thread cam scopeCamId exposure gain excitation fps excitationX10 videoFname
    minFluor maxFluor minFluorDisplay maxFluorDisplay connected running recording failed
    checkRecTrigger recordStart droppedFramesCount currentFPS frameRing onMessageCallback
    useColor showRed showGreen showBlue videoCodec videoContainer recordLossless console
    recorderCalls recordedPasses := d in
  Build_t thread cam scopeCamId exposure gain excitation fps excitationX10 videoFname
    minFluor maxFluor minFluorDisplay maxFluorDisplay connected running recording failed
    checkRecTrigger recordStart droppedFramesCount currentFPS frameRing onMessageCallback
    useColor showRed showGreen showBlue videoCodec videoContainer recordLossless console
    recorderCalls v.

Definition set_fluor (lo hi : float) (d : t) : t :=
  let 'Build_t thread cam scopeCamId exposure gain excitation fps excitationX10 videoFname
    minFluor maxFluor minFluorDisplay maxFluorDisplay connected running recording failed
    checkRecTrigger recordStart droppedFramesCount currentFPS frameRing onMessageCallback
    useColor showRed showGreen showBlue videoCodec videoContainer recordLossless console
    recorderCalls recordedPasses := d in
  Build_t thread cam scopeCamId exposure gain excitation fps excitationX10 videoFname lo hi
    minFluorDisplay maxFluorDisplay connected running recording failed checkRecTrigger
    recordStart droppedFramesCount currentFPS frameRing onMessageCallback useColor showRed
    showGreen showBlue videoCodec videoContainer recordLossless console recorderCalls
    recordedPasses.

Definition set_visible (r g b : bool) (d : t) : t :=
  let 'Build_t thread cam scopeCamId exposure gain excitation fps excitationX10 videoFname
    minFluor maxFluor minFluorDisplay maxFluorDisplay connected running recording failed
    checkRecTrigger recordStart droppedFramesCount currentFPS frameRing onMessageCallback
    useColor showRed showGreen showBlue videoCodec videoContainer recordLossless console
    recorderCalls recordedPasses := d in
  Build_t thread cam scopeCamId exposure gain excitation fps excitationX10 videoFname
    minFluor maxFluor minFluorDisplay maxFluorDisplay connected running recording failed
    checkRecTrigger recordStart droppedFramesCount currentFPS frameRing onMessageCallback
    useColor r g b videoCodec videoContainer recordLossless console recorderCalls
    recordedPasses.

(** [MiniScopeData()] followed by the body of [MiniScope()].  The fields that neither
    initialises ([minFluor], [maxFluor], [recordLossless]) are given a fixed value
    here; [currentFPS] has none until the loop stores one. *)
Definition init : t :=
  {| thread := None; cam := closed; scopeCamId := 0; exposure := 100; gain := 32;
     excitation := 1; fps := 20; excitationX10 := false; videoFname := EmptyString;
     minFluor := 0; maxFluor := 0; minFluorDisplay := 0; maxFluorDisplay := 255;
     connected := false; running := false; recording := false; failed := false;
     checkRecTrigger := false; recordStart := 0; droppedFramesCount := 0;
     currentFPS := None; frameRing := CircularBuffer.make 64; onMessageCallback := false;
     useColor := false; showRed := true; showGreen := true; showBlue := true;
     videoCodec := VP9; videoContainer := Matroska; recordLossless := false;
     console := []; recorderCalls := []; recordedPasses := 0 |}.

End MiniScopeData.

(** ** The controller *)

Module MiniScope.
Import Cv Recorder MiniScopeData.

(** The frame rate the loop derives from the time between two retrieves, [delay]
    being [delayTime.count()] in milliseconds:
    [static_cast<uint>(1 / (delay / static_cast<double>(1000)))]. *)
Definition delaySeconds (delay : Z) : float :=
  PrimFloat.div (Num.to_double delay) (Num.to_double 1000).

Definition framesPerSecond (delay : Z) : float :=
  PrimFloat.div (Num.to_double 1) (delaySeconds delay).

Definition fpsOfDelay (delay : Z) : option Z := Num.to_uint (framesPerSecond delay).

(** [std::chrono::duration_cast<std::chrono::milliseconds>(b - a).count()], for two
    clock readings in nanoseconds. *)
Definition milliseconds (a b : Z) : Z := Z.quot (b - a) 1000000.

(** The value [setLed] computes for the LED channel:
    [static_cast<double>(value) / 2 / 100] after [value > 100] is cut to 100. *)
Definition ledPower (value : Z) : float :=
  let value := if value >? 100 then 100 else value in
  PrimFloat.div (PrimFloat.div (Num.to_double value) (Num.to_double 2)) (Num.to_double 100).

(** What the device and the clock answer during one pass of the capture loop. *)
Record PassEnv := {
  gpio : Z;                     (* [static_cast<int>(cam.get(CV_CAP_PROP_SATURATION))] *)
  triggerClock : Z;             (* the clock, if the trigger starts a recording *)
  grabbed : bool;               (* [cam.grab()] *)
  retrieved : Retrieved;        (* [cam.retrieve(frame)] *)
  reopened : bool;              (* [cam.open] of the reconnect after a dropped frame *)
  clock : Z;                    (* the clock after a successful retrieve *)
  initError : option string     (* [e.what()] if [vwriter->initialize] throws *)
}.

(** How a pass of the loop body ends: at its closing brace or a [continue], or at a
    [break]. *)
Inductive Ctl : Type := Continue | Break.

Section Controller.

(** The two protocol constants come from [definitions.h], which is not among the
    sources. *)
Variable SET_CMOS_SETTINGS : Z.
Variable TRIG_RECORD_EXT : Z.

(** OpenCV's part of the visualisation: the placeholder image that [cv::putText]
    renders, [cv::cvtColor(_, _, CV_BGR2GRAY)], [cv::minMaxLoc] and
    [Mat::convertTo(_, CV_8U, alpha, beta)]. *)
Variable droppedFrameImage : Mat.
Variable cvtColor_BGR2GRAY : Mat -> Mat.
Variable minMaxLoc : Mat -> float * float.
Variable convertTo_8U : Mat -> float -> float -> Mat.

(** Where [emitMessage] delivers: to [std::cout] when no callback is installed, to the
    callback otherwise. *)
Definition sink (d : t) (msg : string) : Output :=
  if negb (onMessageCallback d) then Cout msg else Callback msg.

Definition emitMessage (msg : string) (d : t) : t :=
  set_console (console d ++ [sink d msg]) d.

Definition fail (msg : string) (d : t) : t :=
  let d := set_recording false d in
  let d := set_running false d in
  let d := set_failed true d in
  emitMessage msg d.

Definition setScopeCamId (id : Z) (d : t) : t := set_scopeCamId id d.

Definition setExposure (value : Z) (d : t) : t :=
  let value := if value =? 0 then 1 else value in
  let value := if value >? 100 then 100 else value in
  let d := set_exposure value d in
  set_cam (set CV_CAP_PROP_BRIGHTNESS
             (PrimFloat.div (Num.to_double (MiniScopeData.exposure d)) (Num.to_double 100))
             (cam d)) d.

Definition exposure (d : t) : Z := MiniScopeData.exposure d.

Definition setGain (value : Z) (d : t) : t :=
  let d := set_gain value d in
  set_cam (set CV_CAP_PROP_GAIN
             (PrimFloat.div (Num.to_double (MiniScopeData.gain d)) (Num.to_double 100))
             (cam d)) d.

Definition setLed (value : Z) (d : t) : t :=
  if connected d then set_cam (set CV_CAP_PROP_HUE (ledPower value) (cam d)) d
  else d.

Definition setExcitation (value : Z) (d : t) : t :=
  let d := set_excitation value d in
  setLed value d.

(** The statements of [captureThread] after its loop. *)
Definition captureReturn (th : CaptureThread) (d : t) : t :=
  let d := set_recorderCalls (recorderCalls d ++ [Finalize]) d in
  set_thread (Some {| currentTime := currentTime th; previousTime := previousTime th;
                      vwriter := vwriter th; recordFrames := recordFrames th;
                      finished := true |}) d.

(** [finishCaptureThread]: the join lets a thread that has not returned yet see
    [running = false] at its loop test and return. *)
Definition finishCaptureThread (d : t) : t :=
  match thread d with
  | None => d
  | Some th =>
      let d := set_running false d in
      let d := if finished th then d else captureReturn th d in
      set_thread None d
  end.

(** The statements of [captureThread] before its loop; [t0] is the clock. *)
Definition captureEntry (t0 : Z) (d : t) : t :=
  let d := set_droppedFramesCount 0 d in
  set_thread (Some {| currentTime := t0; previousTime := t0; vwriter := fresh;
                      recordFrames := false; finished := false |}) d.

Definition startCaptureThread (t0 : Z) (d : t) : t :=
  let d := finishCaptureThread d in
  let d := set_running true d in
  captureEntry t0 d.

Definition stop (d : t) : t :=
  let d := set_running false d in
  let d := set_recording false d in
  finishCaptureThread d.

Definition connect (opened : bool) (d : t) : bool * t :=
  if connected d then
    (false, set_console (console d ++ [Cerr "Tried to reconnect already connected camera."]) d)
  else
    let d := set_cam (open opened (cam d)) d in
    let d := set_cam (set CV_CAP_PROP_SATURATION (Num.to_double SET_CMOS_SETTINGS) (cam d)) d in
    let d := setExposure 100 d in
    let d := setGain 32 d in
    let d := setExcitation 1 d in
    let d := set_connected true d in
    let d := setLed 0 d in
    let d := emitMessage ("Initialized camera " ++ Num.show (scopeCamId d)) d in
    (true, d).

Definition disconnect (d : t) : t :=
  let d := stop d in
  let d := set_cam (release (cam d)) d in
  emitMessage ("Disconnected camera " ++ Num.show (scopeCamId d)) d.

Definition run (opened : bool) (t0 : Z) (d : t) : bool * t :=
  if negb (connected d) then (false, d)
  else if failed d then
    let d := emitMessage "Reconnecting to recover from previous failure." d in
    let d := disconnect d in
    let (ok, d) := connect opened d in
    if negb ok then (false, d)
    else (true, startCaptureThread t0 d)
  else (true, startCaptureThread t0 d).

Definition startRecording (fname : string) (opened : bool) (t0 now : Z) (d : t) : bool * t :=
  if negb (connected d) then (false, d)
  else
    let (ok, d) := if negb (running d) then run opened t0 d else (true, d) in
    if negb ok then (false, d)
    else
      let d := if negb (String.eqb fname "") then set_videoFname fname d else d in
      let d := set_recordStart now d in
      let d := set_recording true d in
      (true, d).

Definition stopRecording (d : t) : t := set_recording false d.

Definition running (d : t) : bool := MiniScopeData.running d.

Definition recording (d : t) : bool :=
  MiniScopeData.running d && MiniScopeData.recording d.

Definition setUseColor (color : bool) (d : t) : t := set_useColor color d.

Definition setVisibleChannels (red green blue : bool) (d : t) : t :=
  set_visible red green blue d.

Definition setExternalRecordTrigger (enabled : bool) (d : t) : t :=
  set_checkRecTrigger enabled d.

Definition setVideoFilename (fname : string) (d : t) : t := set_videoFname fname d.

Definition currentFrame (d : t) : Mat * t :=
  if (CircularBuffer.size (frameRing d) =? 0)%nat then (Cv.empty, d)
  else
    match CircularBuffer.front (frameRing d) with
    | Some frame => (frame, set_frameRing (CircularBuffer.pop_front (frameRing d)) d)
    | None => (Cv.empty, d)
    end.

Definition addFrameToBuffer (frame : Mat) (d : t) : t :=
  set_frameRing (CircularBuffer.push_back frame (frameRing d)) d.

(** *** The capture loop *)

Definition withTimes (prev cur : Z) (th : CaptureThread) : CaptureThread :=
  {| currentTime := cur; previousTime := prev; vwriter := vwriter th;
     recordFrames := recordFrames th; finished := finished th |}.

Definition withWriter (w : VideoWriter) (rec : bool) (th : CaptureThread) : CaptureThread :=
  {| currentTime := currentTime th; previousTime := previousTime th; vwriter := w;
     recordFrames := rec; finished := finished th |}.

Definition callRecorder (c : Recorder.Call) (d : t) : t :=
  set_recorderCalls (recorderCalls d ++ [c]) d.

(** Whether the status word read from the device has the trigger bits set:
    [(temp & TRIG_RECORD_EXT) == TRIG_RECORD_EXT]. *)
Definition triggered (temp : Z) : bool := Z.land temp TRIG_RECORD_EXT =? TRIG_RECORD_EXT.

(** The external trigger check that opens the loop body. *)
Definition checkTrigger (env : PassEnv) (d : t) : t :=
  if checkRecTrigger d then
    let temp := gpio env in
    let d := set_console (console d ++ [Cout ("GPIO state: " ++ Num.show temp)]) d in
    if triggered temp then
      if negb (MiniScopeData.recording d) then
        let d := set_recordStart (triggerClock env) d in
        set_recording true d
      else d
    else set_recording false d
  else d.

(** The branch of the loop body taken when [retrieve] gave no frame. *)
Definition frameDropped (env : PassEnv) (d : t) : t :=
  let d := set_recording false d in
  let d := set_droppedFramesCount (Num.size_t_succ (droppedFramesCount d)) d in
  let d := emitMessage "Dropped frame." d in
  let d := addFrameToBuffer droppedFrameImage d in
  let d :=
    if droppedFramesCount d >? 0 then
      let d := emitMessage "Reconnecting Miniscope..." d in
      let d := set_cam (release (cam d)) d in
      let d := set_cam (open (reopened env) (cam d)) d in
      emitMessage "Miniscope reconnected." d
    else d in
  if droppedFramesCount d >? 80 then fail "Too many dropped frames. Giving up." d
  else d.

(** Re-sending the settings after dropped frames. *)
Definition resendSettings (d : t) : t :=
  if droppedFramesCount d >? 0 then
    let d := emitMessage "Sending settings again." d in
    let d := set_cam (set CV_CAP_PROP_BRIGHTNESS (Num.to_double (MiniScopeData.exposure d))
                        (cam d)) d in
    let d := set_cam (set CV_CAP_PROP_GAIN (Num.to_double (MiniScopeData.gain d))
                        (cam d)) d in
    let d := setLed (excitation d) d in
    set_droppedFramesCount 0 d
  else d.

(** The visualisation step: from the retrieved frame, the pair of [frame] and
    [displayFrame] as they stand when the step is over. *)
Definition visualize (frame : Mat) (d : t) : Mat * Mat * t :=
  let displayFrame := frame in                      (* [frame.copyTo(displayFrame)] *)
  if useColor d then
    if showRed d || showGreen d || showBlue d then
      let '(b, g, r) := split frame in
      let b := if negb (showBlue d) then zeros (rows frame) (cols frame) else b in
      let g := if negb (showGreen d) then zeros (rows frame) (cols frame) else g in
      let r := if negb (showRed d) then zeros (rows frame) (cols frame) else r in
      (merge (b, g, r), displayFrame, d)
    else (frame, displayFrame, d)
  else
    let frame := cvtColor_BGR2GRAY frame in
    let (lo, hi) := minMaxLoc frame in
    let d := set_fluor lo hi d in
    let range := Num.to_double (maxFluorDisplay d - minFluorDisplay d) in
    let alpha := PrimFloat.div 255 range in
    let beta :=
      PrimFloat.div (PrimFloat.mul (Num.to_double (- minFluorDisplay d)) 255) range in
    (frame, convertTo_8U frame alpha beta, d).

(** The recording step: starts the encoder on the first frame seen while
    [recording()] holds, finalizes it on the first frame seen after. *)
Definition orchestrate (env : PassEnv) (frame : Mat) (th : CaptureThread) (d : t)
  : t * CaptureThread * Ctl :=
  if recording d then
    let d := set_recordedPasses (S (recordedPasses d)) d in
    if negb (initialized (vwriter th)) then
      let d := emitMessage "Recording enabled." d in
      let d := callRecorder (SetCodec (videoCodec d)) d in
      let d := callRecorder (SetContainer (videoContainer d)) d in
      let d := callRecorder (SetLossless (recordLossless d)) d in
      let init := Initialize (videoFname d) (cols frame) (rows frame) (fps d)
                    (channels frame =? 3) in
      match initError env with
      | Some what =>
          let d := callRecorder (init false) d in
          (fail ("Unable to initialize recording: " ++ what) d, th, Break)
      | None =>
          let d := callRecorder (init true) d in
          let th := withWriter {| initialized := true |} true th in
          (emitMessage "Initialized video recording." d, th, Continue)
      end
    else (d, th, Continue)
  else if recordFrames th then
    let d := callRecorder Finalize d in
    let th := withWriter fresh false th in
    (emitMessage "Recording finalized." d, th, Continue)
  else (d, th, Continue).

(** One execution of the body of [while (self->d->running)]. *)
Definition captureBody (env : PassEnv) (th : CaptureThread) (d : t)
  : t * CaptureThread * Ctl :=
  let d := checkTrigger env d in
  if negb (grabbed env) then (fail "Failed to grab frame." d, th, Break)
  else
    let (status, d) :=
      match retrieved env with
      | Frame frame => (Some frame, d)
      | NoFrame => (None, d)
      | Raised what =>
          (None, set_console (console d ++ [Cerr ("Caught OpenCV exception:" ++ what)]) d)
      end in
    match status with
    | None => (frameDropped env d, th, Continue)
    | Some frame =>
        let th := withTimes (currentTime th) (clock env) th in
        let delayTime := milliseconds (previousTime th) (currentTime th) in
        let d := set_currentFPS (fpsOfDelay delayTime) d in
        let d := resendSettings d in
        let '(frame, displayFrame, d) := visualize frame d in
        match orchestrate env frame th d with
        | (d, th, Break) => (d, th, Break)
        | (d, th, Continue) =>
            let d := addFrameToBuffer displayFrame d in
            let d := if recordFrames th then callRecorder (EncodeFrame frame) d else d in
            (d, th, Continue)
        end
    end.

(** One pass of the loop of a thread that has not returned: the test of [running],
    then the body, then the return from the function if the loop is left. *)
Definition capturePass (env : PassEnv) (d : t) : t :=
  match thread d with
  | None => d
  | Some th =>
      if finished th then d
      else if MiniScopeData.running d then
        match captureBody env th d with
        | (d, th, Break) => captureReturn th d
        | (d, th, Continue) => set_thread (Some th) d
        end
      else captureReturn th d
  end.

(** [captureThread] on its own: entered at clock [t0], it makes one pass per answer
    of the device. *)
Definition captureThread (t0 : Z) (envs : list PassEnv) (d : t) : t :=
  fold_left (fun d env => capturePass env d) envs (captureEntry t0 d).

(** Whether the capture thread exists and has not returned. *)
Definition capturing (d : t) : bool :=
  match thread d with
  | Some th => negb (finished th)
  | None => false
  end.

(** *** Runs of the controller *)

(** A step of the whole system: a call of the public interface by the caller's
    thread, or a pass of the capture loop. *)
Inductive Step : Type :=
| Connect (opened : bool)
| Disconnect
| Run (opened : bool) (t0 : Z)
| Stop
| StartRecording (fname : string) (opened : bool) (t0 now : Z)
| StopRecording
| SetExposure (value : Z)
| SetGain (value : Z)
| SetExcitation (value : Z)
| SetUseColor (color : bool)
| SetVisibleChannels (red green blue : bool)
| SetExternalRecordTrigger (enabled : bool)
| SetVideoFilename (fname : string)
| CurrentFrame
| Pass (env : PassEnv).

Definition step (s : Step) (d : t) : t :=
  match s with
  | Connect opened => snd (connect opened d)
  | Disconnect => disconnect d
  | Run opened t0 => snd (run opened t0 d)
  | Stop => stop d
  | StartRecording fname opened t0 now => snd (startRecording fname opened t0 now d)
  | StopRecording => stopRecording d
  | SetExposure value => setExposure value d
  | SetGain value => setGain value d
  | SetExcitation value => setExcitation value d
  | SetUseColor color => setUseColor color d
  | SetVisibleChannels red green blue => setVisibleChannels red green blue d
  | SetExternalRecordTrigger enabled => setExternalRecordTrigger enabled d
  | SetVideoFilename fname => setVideoFilename fname d
  | CurrentFrame => snd (currentFrame d)
  | Pass env => capturePass env d
  end.

Definition steps (ss : list Step) (d : t) : t := fold_left (fun d s => step s d) ss d.

(** *** Notions the statements use *)

(** [clamp v lo hi]: [v] brought into the interval from [lo] to [hi]. *)
Definition clamp (v lo hi : Z) : Z := Z.min (Z.max v lo) hi.

(** The excitation levels 0 to 100. *)
Definition levels : list Z := map Z.of_nat (seq 0 101).

(** The LED values of all levels, checked pairwise: each within 0 and 0.5, and a larger
    level never a smaller (and, for distinct levels, a strictly larger) value. *)
Definition ledTable : bool :=
  forallb (fun u =>
    forallb (fun v =>
      PrimFloat.leb 0 (ledPower v) && PrimFloat.leb (ledPower v) 0.5
      && implb (u <=? v) (PrimFloat.leb (ledPower u) (ledPower v))
      && implb (u <? v) (PrimFloat.ltb (ledPower u) (ledPower v))) levels) levels.

(** Pushing a list of frames into the ring buffer, first to last. *)
Definition pushFrames (frames : list Mat) (d : t) : t :=
  fold_left (fun d frame => addFrameToBuffer frame d) frames d.

Definition pushAll {A} (xs : list A) (b : CircularBuffer.t A) : CircularBuffer.t A :=
  fold_left (fun b x => CircularBuffer.push_back x b) xs b.

(** A pass in which [grab] succeeds and [retrieve] gives no frame. *)
Definition dropsFrame (env : PassEnv) : Prop :=
  grabbed env = true /\ forall frame, retrieved env <> Frame frame.

(** A pass in which [grab] and [retrieve] succeed with [frame] and the encoder, if it is
    started, starts. *)
Definition deliversFrame (frame : Mat) (env : PassEnv) : Prop :=
  grabbed env = true /\ retrieved env = Frame frame /\ initError env = None.

Definition passes (envs : list PassEnv) (d : t) : t :=
  fold_left (fun d env => capturePass env d) envs d.

(** The [initialize] and [encodeFrame] calls among those made on the encoder. *)
Definition initializations (d : t) : list Recorder.Call :=
  filter is_initialize (recorderCalls d).
Definition encodedFrames (d : t) : list Recorder.Call :=
  filter is_encode (recorderCalls d).

(** The two frames the visualisation step hands on: the one the encoder is given, and
    the one pushed into the ring buffer. *)
Definition recordedFrame (frame : Mat) (d : t) : Mat := fst (fst (visualize frame d)).
Definition displayedFrame (frame : Mat) (d : t) : Mat := snd (fst (visualize frame d)).

(** The text of the last line written or delivered, if any. *)
Definition lastMessage (d : t) : option string :=
  match last (map Some (console d)) None with
  | Some (Cout msg) | Some (Cerr msg) | Some (Callback msg) => Some msg
  | None => None
  end.

(** The capture thread, if there is one that has not returned, holds an encoder that has
    not been started. *)
Definition encoderIdle (d : t) : Prop :=
  match thread d with
  | Some th => finished th = true \/ (initialized (vwriter th) = false /\ recordFrames th = false)
  | None => True
  end.

(** The capture thread is in its loop with an encoder that has been started. *)
Definition encoderStarted (d : t) : Prop :=
  match thread d with
  | Some th => finished th = false /\ initialized (vwriter th) = true /\ recordFrames th = true
  | None => False
  end.

(** The calls that start the encoder for a frame [f], as the loop makes them. *)
Definition startCalls (f : Mat) (d : t) : list Recorder.Call :=
  [SetCodec (videoCodec d); SetContainer (videoContainer d); SetLossless (recordLossless d);
   Initialize (videoFname d) (cols f) (rows f) (fps d) (channels f =? 3) true].

(** *** Sample inputs *)

(** Stand-ins for the protocol constants and for OpenCV's routines, for the places
    where a statement is evaluated on concrete inputs: a one-pixel blue placeholder, a
    grey conversion that keeps the first channel, fixed extrema, and a rescaling that
    changes nothing. *)
Definition sampleSetup : Z := 3.
Definition sampleTrigger : Z := 2.
Definition placeholder : Mat := {| rows := 1; cols := 1; planes := [[255]; [0]; [0]] |}.
Definition sampleGray (m : Mat) : Mat :=
  {| rows := rows m; cols := cols m; planes := firstn 1 (planes m) |}.
Definition sampleExtrema (m : Mat) : float * float := (0%float, 255%float).
Definition sampleScale (m : Mat) (alpha beta : float) : Mat := m.

(** A frame of one pixel with blue 10, green 20 and red 30. *)
Definition pixel : Mat := {| rows := 1; cols := 1; planes := [[10]; [20]; [30]] |}.

(** The same pixel with its red channel zeroed. *)
Definition pixelNoRed : Mat := {| rows := 1; cols := 1; planes := [[10]; [20]; [0]] |}.

(** A frame of [n] rows and no column. *)
Definition numbered (n : nat) : Mat := {| rows := Z.of_nat n; cols := 0; planes := [] |}.

(** A controller that is connected and whose capture thread has just been entered. *)
Definition previewing : t :=
  captureEntry 0 (set_running true (set_connected true init)).

(** A connected controller whose capture loop has failed and returned. *)
Definition broken : t :=
  set_thread (Some {| currentTime := 0; previousTime := 0; vwriter := fresh;
                      recordFrames := false; finished := true |})
    (set_failed true (set_connected true init)).

(** The loop's locals with an encoder that has been started. *)
Definition encoding : CaptureThread :=
  {| currentTime := 0; previousTime := 0; vwriter := {| initialized := true |};
     recordFrames := true; finished := false |}.

(** A running controller in colour mode that is recording, with the given visibility
    of the red channel and with green and blue as [others]. *)
Definition colouring (red others : bool) : t :=
  set_visible red others others (set_useColor true (set_recording true previewing)).

(** Answers of the device: a dropped frame, and a frame [frame] at clock [now]. *)
Definition dropped : PassEnv :=
  {| gpio := 0; triggerClock := 0; grabbed := true; retrieved := NoFrame; reopened := true;
     clock := 0; initError := None |}.

Definition delivered (frame : Mat) (now : Z) : PassEnv :=
  {| gpio := 0; triggerClock := 0; grabbed := true; retrieved := Frame frame;
     reopened := true; clock := now; initError := None |}.

(** *** Further operations and notions *)

(** [MiniScope::~MiniScope()]. *)
Definition destructor (d : t) : t :=
  let d := finishCaptureThread d in
  let d := setExcitation 0 d in
  disconnect d.

(** [n] calls of [currentFrame()] in a row: the frames returned, first call first, and
    the controller after the last. *)
Fixpoint takeFrames (n : nat) (d : t) : list Mat * t :=
  match n with
  | O => ([], d)
  | S n =>
      let (frame, d) := currentFrame d in
      let (frames, d) := takeFrames n d in
      (frame :: frames, d)
  end.

(** The discipline of a video writer, read over the calls made so far: settings and
    [initialize] go to a writer that is not started, [encodeFrame] to a started one,
    [finalize] to either, after which the next writer is not started.  [Some started]
    while the calls keep to it, [None] once one does not. *)
Definition protocolStep (st : option bool) (c : Recorder.Call) : option bool :=
  match st with
  | None => None
  | Some started =>
      match c with
      | SetCodec _ | SetContainer _ | SetLossless _ => if started then None else Some false
      | Initialize _ _ _ _ _ ok => if started then None else Some ok
      | EncodeFrame _ => if started then Some true else None
      | Finalize => Some false
      end
  end.

Definition protocol (calls : list Recorder.Call) : option bool :=
  fold_left protocolStep calls (Some false).

(** Whether the capture thread is in its loop with a started encoder. *)
Definition encoderLive (d : t) : bool :=
  match thread d with
  | Some th => negb (finished th) && initialized (vwriter th)
  | None => false
  end.

(** The loop's flags [recordFrames] and [initialized] agree while the thread is in its
    loop. *)
Definition writerCoherent (d : t) : Prop :=
  match thread d with
  | Some th => finished th = false -> recordFrames th = initialized (vwriter th)
  | None => True
  end.



(** The ring buffer has its 64 places and holds no more. *)
Definition ringBounded (d : t) : Prop :=
  CircularBuffer.capacity (frameRing d) = 64%nat
  /\ (CircularBuffer.size (frameRing d) <= 64)%nat.

(** The channel planes of a three-channel frame with the hidden ones zeroed. *)
Definition masked (frame : Mat) (red green blue : bool) : Mat :=
  let zero := repeat 0 (Z.to_nat (rows frame * cols frame)) in
  {| rows := rows frame; cols := cols frame;
     planes := [if blue then nth 0 (planes frame) [] else zero;
                if green then nth 1 (planes frame) [] else zero;
                if red then nth 2 (planes frame) [] else zero] |}.

(** The frame rates for the delays of 1 to 1000 milliseconds, each checked against the
    integer quotient. *)
Definition fpsTable : bool :=
  forallb (fun n =>
    match fpsOfDelay (Z.of_nat n) with
    | Some f => f =? 1000 / Z.of_nat n
    | None => false
    end) (seq 1 1000).

(** *** Further sample inputs *)

(** The loop's locals as the entry of [captureThread] at clock 0 leaves them. *)
Definition entered : CaptureThread :=
  {| currentTime := 0; previousTime := 0; vwriter := fresh; recordFrames := false;
     finished := false |}.

(** Answers of the device: a failed grab, and a frame [frame] at clock [now] on which
    the encoder does not start. *)
Definition ungrabbed : PassEnv :=
  {| gpio := 0; triggerClock := 0; grabbed := false; retrieved := NoFrame; reopened := true;
     clock := 0; initError := None |}.

Definition unencodable (frame : Mat) (now : Z) : PassEnv :=
  {| gpio := 0; triggerClock := 0; grabbed := true; retrieved := Frame frame;
     reopened := true; clock := now; initError := Some "no codec"%string |}.

(** A frame [frame] at clock [now] with the trigger bits set in the status word, read
    at clock 7. *)
Definition triggering (frame : Mat) (now : Z) : PassEnv :=
  {| gpio := 2; triggerClock := 7; grabbed := true; retrieved := Frame frame;
     reopened := true; clock := now; initError := None |}.

(** *** Elementary facts *)

Lemma ledTable_true : ledTable = true.
Proof. vm_compute. reflexivity. Qed.

Lemma level_listed (v : Z) : 0 <= v <= 100 -> In v levels.
Proof.
  intros Hv. unfold levels.
  replace v with (Z.of_nat (Z.to_nat v)) by lia.
  apply in_map, in_seq. lia.
Qed.

Lemma ledTable_entry (u v : Z) :
  0 <= u <= 100 -> 0 <= v <= 100 ->
  PrimFloat.leb 0 (ledPower v) = true /\ PrimFloat.leb (ledPower v) 0.5 = true
  /\ (u <= v -> PrimFloat.leb (ledPower u) (ledPower v) = true)
  /\ (u < v -> PrimFloat.ltb (ledPower u) (ledPower v) = true).
Proof.
  intros Hu Hv.
  pose proof ledTable_true as T. unfold ledTable in T.
  rewrite forallb_forall in T. specialize (T u (level_listed u Hu)).
  rewrite forallb_forall in T. specialize (T v (level_listed v Hv)).
  apply andb_prop in T. destruct T as [T Hlt].
  apply andb_prop in T. destruct T as [T Hle].
  apply andb_prop in T. destruct T as [H0 H5].
  repeat split; try assumption.
  - intros Huv. apply Z.leb_le in Huv. rewrite Huv in Hle. exact Hle.
  - intros Huv. apply Z.ltb_lt in Huv. rewrite Huv in Hlt. exact Hlt.
Qed.

Lemma ledPower_clamp (v : Z) : 0 <= v -> ledPower v = ledPower (clamp v 0 100).
Proof.
  intros Hv. unfold clamp. destruct (Z.gtb_spec v 100) as [Hgt | Hle].
  - replace (Z.min (Z.max v 0) 100) with 100 by lia.
    unfold ledPower. destruct (Z.gtb_spec v 100); [reflexivity | lia].
  - replace (Z.min (Z.max v 0) 100) with v by lia. reflexivity.
Qed.

Lemma pushAll_capacity {A} (xs : list A) (b : CircularBuffer.t A) :
  CircularBuffer.capacity (pushAll xs b) = CircularBuffer.capacity b.
Proof.
  revert b. induction xs as [| x xs IH]; intros b; [reflexivity |].
  unfold pushAll in *. simpl. rewrite IH. unfold CircularBuffer.push_back.
  destruct (CircularBuffer.capacity b =? 0)%nat; [reflexivity |].
  destruct (CircularBuffer.size b <? CircularBuffer.capacity b)%nat; reflexivity.
Qed.

(** A circular buffer holds the last [capacity] elements of all that went through it. *)
Lemma pushAll_elems {A} (xs : list A) (b : CircularBuffer.t A) :
  (0 < CircularBuffer.capacity b)%nat ->
  (CircularBuffer.size b <= CircularBuffer.capacity b)%nat ->
  CircularBuffer.elems (pushAll xs b)
  = skipn (List.length (CircularBuffer.elems b ++ xs) - CircularBuffer.capacity b)
      (CircularBuffer.elems b ++ xs).
Proof.
  revert b. induction xs as [| x xs IH]; intros b Hcap Hsize.
  - simpl. rewrite app_nil_r. unfold CircularBuffer.size in Hsize.
    replace (_ - _)%nat with 0%nat by lia. reflexivity.
  - unfold pushAll in *. simpl fold_left.
    unfold CircularBuffer.size in *.
    assert (Hpush :
      CircularBuffer.push_back x b
      = {| CircularBuffer.capacity := CircularBuffer.capacity b;
           CircularBuffer.elems :=
             if (List.length (CircularBuffer.elems b) <? CircularBuffer.capacity b)%nat
             then CircularBuffer.elems b ++ [x]
             else tl (CircularBuffer.elems b) ++ [x] |}).
    { unfold CircularBuffer.push_back, CircularBuffer.size.
      destruct (Nat.eqb_spec (CircularBuffer.capacity b) 0); [lia |].
      destruct (_ <? _)%nat; reflexivity. }
    rewrite Hpush. rewrite IH; simpl CircularBuffer.capacity; simpl CircularBuffer.elems.
    + destruct (Nat.ltb_spec (List.length (CircularBuffer.elems b)) (CircularBuffer.capacity b))
        as [Hlt | Hge].
      * rewrite <- app_assoc. reflexivity.
      * destruct (CircularBuffer.elems b) as [| h rest] eqn:E; [simpl in *; lia |].
        cbn [tl List.length] in *. rewrite <- !app_assoc. cbn [app].
        set (l := rest ++ x :: xs).
        assert (Hl : (CircularBuffer.capacity b <= List.length l)%nat).
        { subst l. rewrite length_app. simpl. lia. }
        change (List.length (h :: l)) with (S (List.length l)).
        replace (S (List.length l) - CircularBuffer.capacity b)%nat
          with (S (List.length l - CircularBuffer.capacity b))%nat by lia.
        reflexivity.
    + exact Hcap.
    + destruct (Nat.ltb_spec (List.length (CircularBuffer.elems b)) (CircularBuffer.capacity b)).
      * rewrite length_app. simpl. lia.
      * rewrite length_app. simpl.
        destruct (CircularBuffer.elems b); simpl in *; lia.
Qed.

Lemma pushFrames_ring (frames : list Mat) (d : t) :
  frameRing (pushFrames frames d) = pushAll frames (frameRing d).
Proof.
  revert d. induction frames as [| f frames IH]; intros d; [reflexivity |].
  unfold pushFrames, pushAll in *. simpl. rewrite IH. destruct d; reflexivity.
Qed.

Lemma frameRing_set (r : CircularBuffer.t Mat) (d : t) : frameRing (set_frameRing r d) = r.
Proof. destruct d; reflexivity. Qed.

(** *** Proof automation *)

(** Symbolic execution of the controller on a state given field by field.  [base]
    evaluates field reads, field updates and the operations that make no test of their
    own; [decide_test] splits on a test whose outcome the values at hand leave open,
    earliest test first (a test is ready once nothing inside it waits for another);
    [enter f] steps into the body of [f]. *)
Ltac base :=
  cbv beta iota zeta delta [MiniScopeData.thread MiniScopeData.cam MiniScopeData.scopeCamId
    MiniScopeData.exposure MiniScopeData.gain MiniScopeData.excitation MiniScopeData.fps
    MiniScopeData.excitationX10 MiniScopeData.videoFname MiniScopeData.minFluor
    MiniScopeData.maxFluor MiniScopeData.minFluorDisplay MiniScopeData.maxFluorDisplay
    MiniScopeData.connected MiniScopeData.running MiniScopeData.recording MiniScopeData.failed
    MiniScopeData.checkRecTrigger MiniScopeData.recordStart MiniScopeData.droppedFramesCount
    MiniScopeData.currentFPS MiniScopeData.frameRing MiniScopeData.onMessageCallback
    MiniScopeData.useColor MiniScopeData.showRed MiniScopeData.showGreen MiniScopeData.showBlue
    MiniScopeData.videoCodec MiniScopeData.videoContainer MiniScopeData.recordLossless
    MiniScopeData.console MiniScopeData.recorderCalls MiniScopeData.recordedPasses set_thread
    set_cam set_scopeCamId set_exposure set_gain set_excitation set_videoFname set_connected
    set_running set_recording set_failed set_checkRecTrigger set_recordStart
    set_droppedFramesCount set_currentFPS set_frameRing set_useColor set_console
    set_recorderCalls set_recordedPasses set_fluor set_visible sink emitMessage fail setScopeCamId
    setExposure exposure setGain setExcitation captureReturn captureEntry stopRecording running
    recording setUseColor setVisibleChannels setExternalRecordTrigger setVideoFilename
    addFrameToBuffer withTimes withWriter callRecorder capturing currentTime previousTime
    vwriter recordFrames finished initialized fresh Cv.isOpened Cv.sent Cv.open Cv.release
    Cv.set Cv.closed gpio triggerClock grabbed retrieved reopened clock initError
    initializations encodedFrames fst snd negb andb orb].

Ltac ground_pos p :=
  lazymatch p with
  | xH => idtac
  | xO ?q => ground_pos q
  | xI ?q => ground_pos q
  end.

Ltac ground_Z z :=
  lazymatch z with
  | Z0 => idtac
  | Zpos ?p => ground_pos p
  | Zneg ?p => ground_pos p
  end.

(** A comparison of two integer literals. *)
Ltac ground_test c :=
  lazymatch c with
  | Z.eqb ?a ?b => ground_Z a; ground_Z b
  | Z.gtb ?a ?b => ground_Z a; ground_Z b
  | Z.ltb ?a ?b => ground_Z a; ground_Z b
  | Z.leb ?a ?b => ground_Z a; ground_Z b
  end.

Ltac split_on c :=
  lazymatch c with
  | context [if _ then _ else _] => fail
  | context [match _ with _ => _ end] => fail
  | _ =>
      let T := type of c in
      lazymatch T with
      | t => is_var c
      | prod _ _ => is_var c
      | _ => idtac
      end;
      tryif ground_test c
      then (let v := eval vm_compute in c in change c with v)
      else (let E := fresh "E" in destruct c eqn:E)
  end.

Ltac decide_test :=
  match goal with
  | |- context [if ?c then _ else _] => split_on c
  | |- context [match ?c with _ => _ end] => split_on c
  end.

Ltac decide_tests := repeat (decide_test; base).

Ltac enter f := unfold f; base; decide_tests.

(** Brings the [initialize] and [encodeFrame] calls of a grown call list into view. *)
Ltac calls :=
  rewrite ?filter_app; cbn [filter is_initialize is_encode app];
  rewrite ?app_nil_r, ?length_app; cbn [List.length].

Ltac accounted :=
  first [ left; repeat split; calls; reflexivity
        | right; repeat split; calls; cbn; lia ].

(** *** Each stage of the loop body as one simultaneous assignment *)

Lemma checkTrigger_eq (env : PassEnv) (d : t) :
  checkTrigger env d
  = set_recording
      (if checkRecTrigger d then triggered (gpio env) else MiniScopeData.recording d)
      (set_recordStart
         (if checkRecTrigger d && triggered (gpio env) && negb (MiniScopeData.recording d)
          then triggerClock env else recordStart d)
         (set_console
            (if checkRecTrigger d
             then console d ++ [Cout ("GPIO state: " ++ Num.show (gpio env))]
             else console d) d)).
Proof.
  destruct d, env. enter checkTrigger; reflexivity.
Qed.

Lemma frameDropped_eq (env : PassEnv) (d : t) :
  frameDropped env d
  = let n := Num.size_t_succ (droppedFramesCount d) in
    set_failed (if n >? 80 then true else failed d)
      (set_running (if n >? 80 then false else MiniScopeData.running d)
         (set_recording false
            (set_cam (if n >? 0 then open (reopened env) (release (cam d)) else cam d)
               (set_frameRing (CircularBuffer.push_back droppedFrameImage (frameRing d))
                  (set_droppedFramesCount n
                     (set_console
                        (console d ++ [sink d "Dropped frame."]
                         ++ (if n >? 0
                             then [sink d "Reconnecting Miniscope..."; sink d "Miniscope reconnected."]
                             else [])
                         ++ (if n >? 80 then [sink d "Too many dropped frames. Giving up."]
                             else [])) d)))))).
Proof.
  destruct d, env. enter frameDropped; rewrite <- ?app_assoc; reflexivity.
Qed.

Lemma resendSettings_eq (d : t) :
  resendSettings d
  = let again := droppedFramesCount d >? 0 in
    set_droppedFramesCount (if again then 0 else droppedFramesCount d)
      (set_cam
         (if again then
            let c := set CV_CAP_PROP_GAIN (Num.to_double (gain d))
                       (set CV_CAP_PROP_BRIGHTNESS (Num.to_double (MiniScopeData.exposure d))
                          (cam d)) in
            if connected d then set CV_CAP_PROP_HUE (ledPower (excitation d)) c else c
          else cam d)
         (set_console
            (if again then console d ++ [sink d "Sending settings again."] else console d)
            d)).
Proof.
  destruct d. enter resendSettings; try reflexivity. all: enter setLed; reflexivity.
Qed.

Lemma visualize_eq (frame : Mat) (d : t) :
  visualize frame d
  = (recordedFrame frame d, displayedFrame frame d,
     set_fluor
       (if useColor d then minFluor d else fst (minMaxLoc (cvtColor_BGR2GRAY frame)))
       (if useColor d then maxFluor d else snd (minMaxLoc (cvtColor_BGR2GRAY frame))) d).
Proof.
  unfold recordedFrame, displayedFrame. destruct d. enter visualize; try reflexivity.
  destruct (minMaxLoc (cvtColor_BGR2GRAY frame)); reflexivity.
Qed.

(** *** Setters and accessors *)

(** C5 (as amended).  After [setExposure(e)] the stored exposure, which [exposure()]
    returns, is [e] clamped to the range 1 to 100 for every [e] that is not negative; a
    negative [e] is stored as it is. *)
Theorem setExposure_stored (e : Z) (d : t) :
  exposure (setExposure e d) = if e <? 0 then e else clamp e 1 100.
Proof.
  destruct d. unfold exposure, setExposure, clamp. cbn.
  destruct (Z.eqb_spec e 0) as [-> | Hne]; [reflexivity |].
  destruct (Z.gtb_spec e 100), (Z.ltb_spec e 0); lia.
Qed.

(** C6 (as amended).  For excitation inputs [u <= v] that are not negative, the value
    [setLed(v)] sends to the LED channel of a connected device is the LED value of
    [clamp v 0 100]; it lies between 0 and 0.5, is not below the value for [u], and is
    above it when [clamp u 0 100] is below [clamp v 0 100]. *)
Theorem setLed_sends (u v : Z) (d : t) :
  0 <= u -> u <= v -> connected d = true ->
  sent (cam (setLed v d)) = sent (cam d) ++ [(CV_CAP_PROP_HUE, ledPower (clamp v 0 100))]
  /\ PrimFloat.leb 0 (ledPower v) = true
  /\ PrimFloat.leb (ledPower v) 0.5 = true
  /\ PrimFloat.leb (ledPower u) (ledPower v) = true
  /\ (clamp u 0 100 < clamp v 0 100 -> PrimFloat.ltb (ledPower u) (ledPower v) = true).
Proof.
  intros Hu Huv Hconn.
  assert (Hv : 0 <= v) by lia.
  rewrite (ledPower_clamp u Hu), (ledPower_clamp v Hv).
  assert (Hcu : 0 <= clamp u 0 100 <= 100) by (unfold clamp; lia).
  assert (Hcv : 0 <= clamp v 0 100 <= 100) by (unfold clamp; lia).
  destruct (ledTable_entry _ _ Hcu Hcv) as (H0 & H5 & Hle & Hlt).
  split; [| repeat split; try assumption].
  - unfold setLed. rewrite Hconn, (ledPower_clamp v Hv). destruct d; reflexivity.
  - apply Hle. unfold clamp. lia.
Qed.

(** C10.  [recording()] is the conjunction of the [running] and [recording] flags, so it
    never answers true while [running()] answers false, whatever the flags are. *)
Theorem recording_needs_running (d : t) :
  recording d = MiniScopeData.running d && MiniScopeData.recording d
  /\ recording d && negb (running d) = false.
Proof.
  unfold recording, running.
  destruct (MiniScopeData.running d), (MiniScopeData.recording d); split; reflexivity.
Qed.

(** *** The ring buffer *)

(** C7.  The ring buffer is built with room for 64 frames.  Pushing 65 frames, [oldest]
    first, onto the empty buffer leaves exactly the 64 pushed after [oldest], in the
    order pushed; [currentFrame()] then returns the first of them and removes it; and on
    the empty buffer [currentFrame()] returns the empty matrix and changes nothing. *)
Theorem frameRing_fifo (oldest : Mat) (newer : list Mat) (d : t) :
  frameRing d = CircularBuffer.make 64 -> List.length newer = 64%nat ->
  let d' := pushFrames (oldest :: newer) d in
  CircularBuffer.capacity (frameRing init) = 64%nat
  /\ CircularBuffer.elems (frameRing d') = newer
  /\ fst (currentFrame d') = hd Cv.empty newer
  /\ CircularBuffer.elems (frameRing (snd (currentFrame d'))) = tl newer
  /\ currentFrame d = (Cv.empty, d).
Proof.
  intros Hring Hlen d'.
  assert (Helems : CircularBuffer.elems (frameRing d') = newer).
  { subst d'. rewrite pushFrames_ring, Hring.
    rewrite pushAll_elems by (unfold CircularBuffer.size; cbn; lia).
    simpl CircularBuffer.elems. simpl CircularBuffer.capacity. rewrite app_nil_l.
    change (List.length (oldest :: newer)) with (S (List.length newer)).
    rewrite Hlen. reflexivity. }
  split; [reflexivity |]. split; [exact Helems |].
  assert (Hpop : currentFrame d'
                 = (hd Cv.empty newer,
                    set_frameRing (CircularBuffer.pop_front (frameRing d')) d')).
  { unfold currentFrame, CircularBuffer.size, CircularBuffer.front. rewrite Helems.
    destruct newer; [discriminate Hlen | reflexivity]. }
  rewrite Hpop. split; [reflexivity |]. split.
  - cbn [snd]. rewrite frameRing_set. unfold CircularBuffer.pop_front.
    cbn [CircularBuffer.elems]. rewrite Helems. reflexivity.
  - unfold currentFrame. rewrite Hring. reflexivity.
Qed.

(** *** Connecting *)

(** C2 (as amended).  [connect()] returns failure exactly when the controller is
    already connected.  Otherwise it returns success and sets [connected], whether or
    not the device opened: the answer of [cam.open] only decides whether the camera
    object is open afterwards. *)
Theorem connect_result (opened : bool) (d : t) :
  fst (connect opened d) = negb (connected d)
  /\ connected (snd (connect opened d)) = true
  /\ isOpened (cam (snd (connect opened d)))
     = (if connected d then isOpened (cam d) else opened).
Proof.
  destruct d. enter connect; [auto |]. enter setLed; auto.
Qed.

(** *** Recovering from a failure *)

(** C1 (what the code does).  On a connected controller in the failed state, [run()]
    always returns false, whatever the device answers: [disconnect()] leaves
    [connected] set, so the [connect()] that follows refuses.  The controller stays
    failed, no capture thread is started, and the camera is left released. *)
Theorem run_cannot_recover (opened : bool) (t0 : Z) (d : t) :
  connected d = true -> failed d = true ->
  fst (run opened t0 d) = false
  /\ failed (snd (run opened t0 d)) = true
  /\ connected (snd (run opened t0 d)) = true
  /\ running (snd (run opened t0 d)) = false
  /\ thread (snd (run opened t0 d)) = None
  /\ isOpened (cam (snd (run opened t0 d))) = false.
Proof.
  intros Hc Hf. destruct d. cbn in Hc, Hf. subst.
  enter run. all: enter disconnect. all: enter stop. all: enter finishCaptureThread.
  all: enter connect; repeat split; reflexivity.
Qed.

(** *** Telemetry *)

(** C8 (as amended).  The frame rate is computed without a guard.  In a pass that
    retrieves a frame less than a millisecond after the previous one, the delay in
    seconds is 0.0, the quotient [1 / 0.0] is +infinity, and no [unsigned] value comes
    out of it: [currentFPS] holds no determined value after the pass. *)
Theorem currentFPS_unguarded (env : PassEnv) (th : CaptureThread) (frame : Mat) (d : t) :
  thread d = Some th -> finished th = false -> MiniScopeData.running d = true ->
  grabbed env = true -> retrieved env = Frame frame ->
  milliseconds (currentTime th) (clock env) = 0 ->
  delaySeconds 0 = 0%float
  /\ framesPerSecond 0 = infinity
  /\ currentFPS (capturePass env d) = None.
Proof.
  intros Hth Hfin Hrun Hgrab Hret Hms.
  split; [reflexivity |]. split; [reflexivity |].
  destruct d, th, env. cbn in Hth, Hfin, Hrun, Hgrab, Hret, Hms. subst.
  enter capturePass. unfold captureBody; base. rewrite Hms.
  rewrite checkTrigger_eq; base. rewrite resendSettings_eq; base.
  rewrite visualize_eq; base. enter orchestrate; reflexivity.
Qed.

(** *** The failed flag *)

(** No call of the public interface and no pass of the capture loop clears [failed]. *)
Lemma failed_stays_step (s : Step) (d : t) : failed d = true -> failed (step s d) = true.
Proof.
  intros Hf. destruct d. cbn in Hf. subst. destruct s.
  - enter step. enter connect; try reflexivity. all: enter setLed; reflexivity.
  - enter step. enter disconnect. all: enter stop. all: enter finishCaptureThread.
    all: reflexivity.
  - enter step. enter run.
    all: try enter disconnect. all: try enter stop.
    all: try enter finishCaptureThread. all: try enter connect.
    all: reflexivity.
  - enter step. enter stop. all: enter finishCaptureThread. all: reflexivity.
  - enter step. enter startRecording.
    all: try enter run.
    all: try enter disconnect. all: try enter stop.
    all: try enter finishCaptureThread. all: try enter connect.
    all: reflexivity.
  - enter step. reflexivity.
  - enter step. reflexivity.
  - enter step. reflexivity.
  - enter step. enter setLed; reflexivity.
  - enter step. reflexivity.
  - enter step. reflexivity.
  - enter step. reflexivity.
  - enter step. reflexivity.
  - enter step. enter currentFrame; reflexivity.
  - destruct env.
    destruct thread0 as [[? ? ? ? fin] |]; [destruct fin |]; enter step; enter capturePass.
    1, 3, 4: reflexivity.
    destruct grabbed0; unfold captureBody; base;
      rewrite checkTrigger_eq; base; [| reflexivity].
    destruct retrieved0 as [frame | | what]; base.
    2, 3: rewrite frameDropped_eq; base; decide_tests; reflexivity.
    rewrite resendSettings_eq; base. rewrite visualize_eq; base.
    enter orchestrate; reflexivity.
Qed.

(** X1.  Once [failed] is set, no run of interface calls and loop passes clears it. *)
Theorem failed_is_never_cleared (ss : list Step) (d : t) :
  failed d = true -> failed (steps ss d) = true.
Proof.
  revert d. induction ss as [| s ss IH]; intros d Hf; [exact Hf |].
  change (steps (s :: ss) d) with (steps ss (step s d)).
  apply IH, failed_stays_step, Hf.
Qed.


(** *** The drop ceiling *)

Lemma size_t_succ_small (n : Z) : 0 <= n < 2 ^ 64 - 1 -> Num.size_t_succ n = n + 1.
Proof. intros Hn. unfold Num.size_t_succ. apply Z.mod_small. lia. Qed.

Lemma last_message_app (l : list Output) (o : Output) :
  last (map Some (l ++ [o])) None = Some o.
Proof. rewrite map_app. simpl. apply last_last. Qed.

(** A pass of a thread that finds [running] cleared returns from the thread. *)
Lemma pass_leaves_loop (env : PassEnv) (d : t) :
  capturing d = true -> running d = false -> capturing (capturePass env d) = false.
Proof.
  intros Hcap Hrun. destruct d. unfold capturing, running in *. cbn in Hcap, Hrun.
  destruct thread0 as [[? ? ? ? fin] |]; [| discriminate]. destruct fin; [discriminate |].
  subst. enter capturePass. reflexivity.
Qed.

(** What a pass with a dropped frame does to the flags and the counter. *)
Lemma drop_pass (env : PassEnv) (d : t) :
  capturing d = true -> running d = true -> dropsFrame env ->
  0 <= droppedFramesCount d < 100 ->
  capturing (capturePass env d) = true
  /\ droppedFramesCount (capturePass env d) = droppedFramesCount d + 1
  /\ MiniScopeData.recording (capturePass env d) = false
  /\ (droppedFramesCount d + 1 <= 80 ->
      running (capturePass env d) = true /\ failed (capturePass env d) = failed d)
  /\ (80 < droppedFramesCount d + 1 ->
      running (capturePass env d) = false /\ failed (capturePass env d) = true
      /\ lastMessage (capturePass env d) = Some "Too many dropped frames. Giving up."%string).
Proof.
  intros Hcap Hrun [Hgrab Hret] Hcount.
  destruct d, env. unfold capturing, running in *. cbn in Hcap, Hrun, Hgrab, Hret, Hcount.
  destruct thread0 as [[? ? ? ? fin] |]; [| discriminate]. destruct fin; [discriminate |].
  subst.
  assert (Hsucc := size_t_succ_small droppedFramesCount0 ltac:(lia)).
  assert (Hpos : (droppedFramesCount0 + 1 >? 0) = true) by (apply Z.gtb_lt; lia).
  enter capturePass. unfold captureBody; base.
  destruct retrieved0 as [frame | | what]; [exfalso; apply (Hret frame); reflexivity | |].
  all: base; rewrite checkTrigger_eq; base; rewrite frameDropped_eq; base.
  all: rewrite Hsucc, Hpos.
  all: destruct (Z.gtb_spec (droppedFramesCount0 + 1) 80) as [Hgt | Hle].
  all: unfold lastMessage; base.
  all: repeat split; try reflexivity; try (intros; lia).
  all: rewrite !app_assoc, last_message_app.
  all: destruct onMessageCallback0; reflexivity.
Qed.

(** What a pass with a delivered frame does to the flags and the counter. *)
Lemma frame_pass (frame : Mat) (env : PassEnv) (d : t) :
  capturing d = true -> running d = true -> deliversFrame frame env ->
  0 <= droppedFramesCount d ->
  capturing (capturePass env d) = true
  /\ droppedFramesCount (capturePass env d) = 0
  /\ running (capturePass env d) = true
  /\ failed (capturePass env d) = failed d.
Proof.
  intros Hcap Hrun (Hgrab & Hret & Hinit) Hcount.
  destruct d, env. unfold capturing, running in *.
  cbn in Hcap, Hrun, Hgrab, Hret, Hinit, Hcount.
  destruct thread0 as [[? ? ? ? fin] |]; [| discriminate]. destruct fin; [discriminate |].
  subst.
  enter capturePass. unfold captureBody; base.
  rewrite checkTrigger_eq; base. rewrite resendSettings_eq; base.
  rewrite visualize_eq; base. enter orchestrate.
  all: repeat split; try reflexivity.
  all: destruct (Z.gtb_spec droppedFramesCount0 0); lia.
Qed.

(** The flags and the counter after any number of dropped frames up to the ceiling of
    81, counted from zero. *)
Lemma drops_counted (d : t) (drops : list PassEnv) :
  capturing d = true -> running d = true -> failed d = false -> droppedFramesCount d = 0 ->
  Forall dropsFrame drops -> (List.length drops <= 81)%nat ->
  capturing (passes drops d) = true
  /\ droppedFramesCount (passes drops d) = Z.of_nat (List.length drops)
  /\ ((List.length drops <= 80)%nat ->
      running (passes drops d) = true /\ failed (passes drops d) = false)
  /\ (List.length drops = 81%nat ->
      running (passes drops d) = false /\ failed (passes drops d) = true
      /\ MiniScopeData.recording (passes drops d) = false
      /\ lastMessage (passes drops d) = Some "Too many dropped frames. Giving up."%string).
Proof.
  intros Hcap Hrun Hfail Hzero.
  induction drops as [| env drops IH] using rev_ind; intros Hall Hlen.
  - cbn. rewrite Hzero. repeat split; try assumption; discriminate.
  - rewrite length_app in *. cbn [List.length] in *.
    apply Forall_app in Hall. destruct Hall as [Hall Henv].
    apply Forall_inv in Henv.
    destruct (IH Hall ltac:(lia)) as (IHcap & IHcount & IHbelow & _).
    destruct (IHbelow ltac:(lia)) as [IHrun IHfail].
    unfold passes in *. rewrite fold_left_app. cbn [fold_left].
    set (d1 := fold_left (fun d env => capturePass env d) drops d) in *.
    destruct (drop_pass env d1 IHcap IHrun Henv ltac:(lia))
      as (Hcap' & Hcount' & Hrec' & Hbelow' & Habove').
    split; [exact Hcap' |]. split; [rewrite Hcount', IHcount; lia |]. split.
    + intros Hle. destruct (Hbelow' ltac:(lia)) as [-> ->]. split; [reflexivity | exact IHfail].
    + intros Heq. destruct (Habove' ltac:(lia)) as (-> & -> & ->). auto.
Qed.

(** C3.  Counted from zero in a running loop, up to 80 consecutive passes that drop
    their frame leave the loop running and not failed, with [droppedFramesCount] at
    their number, and a pass that then delivers a frame resets the counter to zero,
    still running and not failed.  The 81st consecutive drop calls [fail]: [failed] is
    set, [running] and [recording] are cleared, and the next test of the loop
    condition ends the loop. *)
Theorem drop_ceiling (drops : list PassEnv) (frame : Mat) (ok next : PassEnv) (d : t) :
  capturing d = true -> running d = true -> failed d = false ->
  droppedFramesCount d = 0 ->
  Forall dropsFrame drops -> (List.length drops <= 81)%nat -> deliversFrame frame ok ->
  capturing (passes drops d) = true
  /\ droppedFramesCount (passes drops d) = Z.of_nat (List.length drops)
  /\ if (List.length drops <=? 80)%nat
     then running (passes drops d) = true /\ failed (passes drops d) = false
          /\ droppedFramesCount (capturePass ok (passes drops d)) = 0
          /\ running (capturePass ok (passes drops d)) = true
          /\ failed (capturePass ok (passes drops d)) = false
          /\ capturing (capturePass ok (passes drops d)) = true
     else failed (passes drops d) = true /\ running (passes drops d) = false
          /\ MiniScopeData.recording (passes drops d) = false
          /\ lastMessage (passes drops d) = Some "Too many dropped frames. Giving up."%string
          /\ capturing (capturePass next (passes drops d)) = false.
Proof.
  intros Hcap Hrun Hfail Hzero Hall Hlen Hok.
  destruct (drops_counted d drops Hcap Hrun Hfail Hzero Hall Hlen)
    as (Hcap' & Hcount' & Hbelow & Hat).
  split; [exact Hcap' |]. split; [exact Hcount' |].
  destruct (Nat.leb_spec (List.length drops) 80) as [Hle | Hgt].
  - destruct (Hbelow Hle) as [Hrun' Hfail'].
    destruct (frame_pass frame ok _ Hcap' Hrun' Hok ltac:(lia)) as (Hc & Hn & Hr & Hf).
    rewrite Hf. auto 10.
  - destruct (Hat ltac:(lia)) as (Hrun' & Hfail' & Hrec' & Hmsg).
    repeat split; try assumption. apply pass_leaves_loop; assumption.
Qed.

(** *** Colour frames *)

(** With the three visibility flags all set (on a three-channel frame) or all cleared,
    the visualisation step of colour mode zeroes nothing: both frames it hands on are
    the retrieved frame. *)
Lemma frames_agree (frame : Mat) (d : t) :
  useColor d = true -> showRed d = showGreen d -> showGreen d = showBlue d ->
  List.length (planes frame) = 3%nat ->
  recordedFrame frame d = frame /\ displayedFrame frame d = frame.
Proof.
  intros Hcolor Hrg Hgb Hchan.
  destruct frame as [r c ps].
  destruct ps as [| b [| g [| r' [| ? ?]]]]; try discriminate Hchan.
  unfold recordedFrame, displayedFrame.
  destruct d. cbn in Hcolor, Hrg, Hgb. subst.
  enter visualize; split; reflexivity.
Qed.

(** C4 (as amended).  In colour mode, when the three visibility flags are all cleared
    the step that zeroes hidden channels is skipped, and when they are all set (on a
    three-channel frame) it zeroes nothing.  In both cases a pass that retrieves a frame
    and runs to the end of the loop body pushes that very frame into the ring buffer
    (never a black one), and the frame it hands to the encoder, if it hands one, is that
    very frame too. *)
Theorem color_frames_when_flags_agree
  (env : PassEnv) (th : CaptureThread) (frame : Mat) (d : t) :
  useColor d = true -> showRed d = showGreen d -> showGreen d = showBlue d ->
  List.length (planes frame) = 3%nat ->
  grabbed env = true -> retrieved env = Frame frame ->
  snd (captureBody env th d) = Continue ->
  frameRing (fst (fst (captureBody env th d)))
  = CircularBuffer.push_back frame (frameRing d)
  /\ if recordFrames (snd (fst (captureBody env th d)))
     then exists calls,
         recorderCalls (fst (fst (captureBody env th d))) = calls ++ [EncodeFrame frame]
     else encodedFrames (fst (fst (captureBody env th d))) = encodedFrames d.
Proof.
  intros Hcolor Hrg Hgb Hchan Hgrab Hret.
  destruct d, th, env. cbn in Hcolor, Hrg, Hgb, Hgrab, Hret. subst.
  unfold captureBody; base.
  rewrite checkTrigger_eq; base. rewrite resendSettings_eq; base.
  rewrite visualize_eq; base.
  match goal with
  | |- context [recordedFrame frame ?D] =>
      destruct (frames_agree frame D) as [-> ->]; try reflexivity; try assumption
  end.
  enter orchestrate.
  all: intros Hctl; try discriminate Hctl.
  all: split; [reflexivity |].
  all: try (eexists; reflexivity).
  all: rewrite ?filter_app; cbn [filter is_encode]; rewrite ?app_nil_r; reflexivity.
Qed.

(** *** The encoder *)

(** A call of the public interface starts no encoder, encodes no frame and processes
    no frame. *)
Lemma call_accounting (s : Step) (d : t) :
  (forall env, s <> Pass env) ->
  recordedPasses (step s d) = recordedPasses d
  /\ initializations (step s d) = initializations d
  /\ encodedFrames (step s d) = encodedFrames d.
Proof.
  intros Hcall. destruct d. destruct s; try (exfalso; eapply Hcall; reflexivity).
  - enter step. enter connect; try (repeat split; reflexivity).
    all: enter setLed; repeat split; reflexivity.
  - enter step. enter disconnect. all: enter stop. all: enter finishCaptureThread.
    all: repeat split; calls; reflexivity.
  - enter step. enter run.
    all: try enter disconnect. all: try enter stop.
    all: try enter startCaptureThread. all: try enter finishCaptureThread.
    all: try enter connect.
    all: repeat split; calls; reflexivity.
  - enter step. enter stop. all: enter finishCaptureThread.
    all: repeat split; calls; reflexivity.
  - enter step. enter startRecording.
    all: try enter run.
    all: try enter disconnect. all: try enter stop.
    all: try enter startCaptureThread. all: try enter finishCaptureThread.
    all: try enter connect.
    all: repeat split; calls; reflexivity.
  - enter step. repeat split; reflexivity.
  - enter step. repeat split; reflexivity.
  - enter step. repeat split; reflexivity.
  - enter step. enter setLed; repeat split; reflexivity.
  - enter step. repeat split; reflexivity.
  - enter step. repeat split; reflexivity.
  - enter step. repeat split; reflexivity.
  - enter step. repeat split; reflexivity.
  - enter step. enter currentFrame; repeat split; reflexivity.
Qed.

(** A pass of the loop either processes no frame while recording, and then starts no
    encoder and encodes nothing, or processes one, and then makes at most one
    [initialize] and at most one [encodeFrame] call. *)
Lemma pass_accounting (env : PassEnv) (d : t) :
  (recordedPasses (capturePass env d) = recordedPasses d
   /\ initializations (capturePass env d) = initializations d
   /\ encodedFrames (capturePass env d) = encodedFrames d)
  \/ (recordedPasses (capturePass env d) = S (recordedPasses d)
      /\ (List.length (initializations (capturePass env d))
          <= S (List.length (initializations d)))%nat
      /\ (List.length (encodedFrames (capturePass env d))
          <= S (List.length (encodedFrames d)))%nat).
Proof.
  destruct d, env.
  destruct thread0 as [[? ? ? ? fin] |]; [destruct fin |]; enter capturePass.
  1, 3, 4: accounted.
  destruct grabbed0; unfold captureBody; base;
    rewrite checkTrigger_eq; base; [| accounted].
  destruct retrieved0 as [frame | | what]; base.
  2, 3: rewrite frameDropped_eq; base; accounted.
  rewrite resendSettings_eq; base. rewrite visualize_eq; base.
  enter orchestrate; accounted.
Qed.

Lemma step_accounting (s : Step) (d : t) :
  (recordedPasses (step s d) = recordedPasses d
   /\ initializations (step s d) = initializations d
   /\ encodedFrames (step s d) = encodedFrames d)
  \/ (recordedPasses (step s d) = S (recordedPasses d)
      /\ (List.length (initializations (step s d)) <= S (List.length (initializations d)))%nat
      /\ (List.length (encodedFrames (step s d)) <= S (List.length (encodedFrames d)))%nat).
Proof.
  destruct s; try (left; apply call_accounting; discriminate).
  apply pass_accounting.
Qed.

(** Over any run, the [initialize] calls and the [encodeFrame] calls are each at most
    as many as the frames processed while recording. *)
Lemma steps_accounting (ss : list Step) (d : t) :
  (recordedPasses d <= recordedPasses (steps ss d))%nat
  /\ (List.length (initializations (steps ss d)) + recordedPasses d
      <= List.length (initializations d) + recordedPasses (steps ss d))%nat
  /\ (List.length (encodedFrames (steps ss d)) + recordedPasses d
      <= List.length (encodedFrames d) + recordedPasses (steps ss d))%nat
  /\ (recordedPasses (steps ss d) = recordedPasses d ->
      initializations (steps ss d) = initializations d
      /\ encodedFrames (steps ss d) = encodedFrames d).
Proof.
  revert d. induction ss as [| s ss IH]; intros d.
  - cbn. repeat split; lia.
  - change (steps (s :: ss) d) with (steps ss (step s d)).
    destruct (IH (step s d)) as (Hmono & Hinit & Henc & Hnone).
    destruct (step_accounting s d) as [(Hp & Hi & He) | (Hp & Hi & He)].
    + rewrite Hp, Hi, He in *. repeat split; try lia; apply Hnone; assumption.
    + repeat split; try lia.
Qed.

(** [startRecording] on a connected controller that has not failed: it succeeds and
    leaves the loop running with [recording] set and the encoder untouched. *)
Lemma startRecording_state (fname : string) (opened : bool) (t0 now : Z) (d : t) :
  connected d = true -> failed d = false ->
  capturing d = running d -> encoderIdle d ->
  fst (startRecording fname opened t0 now d) = true
  /\ capturing (snd (startRecording fname opened t0 now d)) = true
  /\ running (snd (startRecording fname opened t0 now d)) = true
  /\ MiniScopeData.recording (snd (startRecording fname opened t0 now d)) = true
  /\ checkRecTrigger (snd (startRecording fname opened t0 now d)) = checkRecTrigger d
  /\ encoderIdle (snd (startRecording fname opened t0 now d)).
Proof.
  intros Hconn Hfail Hcap Hidle.
  destruct d. unfold capturing, running, encoderIdle in *. cbn in Hconn, Hfail, Hcap, Hidle.
  destruct thread0 as [[ct pt [ini] rf fin] |]; [destruct fin |]; cbn in Hcap, Hidle; subst.
  - enter startRecording. all: enter run. all: enter startCaptureThread.
    all: enter finishCaptureThread. all: unfold encoderIdle; base; auto 10.
  - destruct Hidle as [Hidle | [Hini Hrf]]; [discriminate |]. subst.
    enter startRecording. all: unfold encoderIdle; base; auto 10.
  - enter startRecording. all: enter run. all: enter startCaptureThread.
    all: enter finishCaptureThread. all: unfold encoderIdle; base; auto 10.
Qed.

(** The first frame delivered while [recording] is set starts the encoder and is
    encoded. *)
Lemma first_frame_starts_encoder (frame : Mat) (env : PassEnv) (d : t) :
  capturing d = true -> running d = true -> MiniScopeData.recording d = true ->
  checkRecTrigger d = false -> encoderIdle d -> deliversFrame frame env ->
  (exists f,
      recorderCalls (capturePass env d) = recorderCalls d ++ startCalls f d ++ [EncodeFrame f])
  /\ encoderStarted (capturePass env d)
  /\ running (capturePass env d) = true
  /\ checkRecTrigger (capturePass env d) = false.
Proof.
  intros Hcap Hrun Hrec Htrig Hidle (Hgrab & Hret & Hinit).
  destruct d, env. unfold capturing, running, encoderIdle, encoderStarted in *.
  cbn in Hcap, Hrun, Hrec, Htrig, Hidle, Hgrab, Hret, Hinit.
  destruct thread0 as [[ct pt [ini] rf fin] |]; [| discriminate].
  destruct fin; [discriminate |].
  destruct Hidle as [Hidle | [Hini Hrf]]; [discriminate |]. cbn in Hini, Hrf. subst.
  enter capturePass. unfold captureBody; base.
  rewrite checkTrigger_eq; base. rewrite resendSettings_eq; base.
  rewrite visualize_eq; base. enter orchestrate.
  all: split; [| auto].
  all: eexists; unfold startCalls; base; rewrite <- !app_assoc; reflexivity.
Qed.

(** The first frame delivered after [recording] was cleared: a started encoder is
    finalized and gets no frame; an idle one is left alone. *)
Lemma frame_after_stop (frame : Mat) (env : PassEnv) (d : t) :
  running d = true -> MiniScopeData.recording d = false ->
  checkRecTrigger d = false -> deliversFrame frame env ->
  (encoderStarted d -> recorderCalls (capturePass env d) = recorderCalls d ++ [Finalize])
  /\ (capturing d = true -> encoderIdle d ->
      recorderCalls (capturePass env d) = recorderCalls d).
Proof.
  intros Hrun Hrec Htrig (Hgrab & Hret & Hinit).
  destruct d, env. unfold capturing, running, encoderIdle, encoderStarted in *.
  cbn in Hrun, Hrec, Htrig, Hgrab, Hret, Hinit. subst.
  split.
  - intros Hstarted. cbn in Hstarted.
    destruct thread0 as [[ct pt [ini] rf fin] |]; [| contradiction].
    cbn in Hstarted. destruct Hstarted as (-> & -> & ->).
    enter capturePass. unfold captureBody; base.
    rewrite checkTrigger_eq; base. rewrite resendSettings_eq; base.
    rewrite visualize_eq; base. enter orchestrate. all: reflexivity.
  - intros Hcap Hidle. cbn in Hcap, Hidle.
    destruct thread0 as [[ct pt [ini] rf fin] |]; [| discriminate].
    destruct fin; [discriminate |].
    destruct Hidle as [Hidle | [Hini Hrf]]; [discriminate |]. cbn in Hini, Hrf. subst.
    enter capturePass. unfold captureBody; base.
    rewrite checkTrigger_eq; base. rewrite resendSettings_eq; base.
    rewrite visualize_eq; base. enter orchestrate. all: reflexivity.
Qed.

(** [stopRecording] clears the flag and touches nothing else. *)
Lemma stopRecording_state (d : t) :
  MiniScopeData.recording (stopRecording d) = false
  /\ running (stopRecording d) = running d
  /\ checkRecTrigger (stopRecording d) = checkRecTrigger d
  /\ capturing (stopRecording d) = capturing d
  /\ recorderCalls (stopRecording d) = recorderCalls d
  /\ (encoderIdle d -> encoderIdle (stopRecording d))
  /\ (encoderStarted d -> encoderStarted (stopRecording d)).
Proof.
  destruct d. unfold encoderIdle, encoderStarted. base. auto 10.
Qed.

(** A recording stopped before any frame was processed: the pass that follows reaches
    the encoder with nothing. *)
Lemma stopped_before_first_frame (frame : Mat) (env : PassEnv) (d : t) :
  capturing d = true -> running d = true ->
  checkRecTrigger d = false -> encoderIdle d -> deliversFrame frame env ->
  recorderCalls (steps [StopRecording; Pass env] d) = recorderCalls d.
Proof.
  intros Hcap Hrun Htrig Hidle Henv.
  change (steps [StopRecording; Pass env] d) with (capturePass env (stopRecording d)).
  destruct (stopRecording_state d) as (Hrec' & Hrun' & Htrig' & Hcap' & Hcalls' & Hidle' & _).
  rewrite <- Hcalls'.
  apply (frame_after_stop frame env (stopRecording d)); try assumption; try congruence.
  apply Hidle'. exact Hidle.
Qed.

(** A recording over one frame: the encoder is started once, encodes the frame, and is
    finalized by the first pass after [stopRecording]. *)
Lemma one_frame_session (frame frame' : Mat) (env env' : PassEnv) (d : t) :
  capturing d = true -> running d = true -> MiniScopeData.recording d = true ->
  checkRecTrigger d = false -> encoderIdle d ->
  deliversFrame frame env -> deliversFrame frame' env' ->
  exists f,
    recorderCalls (steps [Pass env; StopRecording; Pass env'] d)
    = recorderCalls d ++ startCalls f d ++ [EncodeFrame f; Finalize].
Proof.
  intros Hcap Hrun Hrec Htrig Hidle Henv Henv'.
  change (steps [Pass env; StopRecording; Pass env'] d)
    with (capturePass env' (stopRecording (capturePass env d))).
  destruct (first_frame_starts_encoder frame env d Hcap Hrun Hrec Htrig Hidle Henv)
    as ((f & Hcalls) & Hstarted & Hrun1 & Htrig1).
  destruct (stopRecording_state (capturePass env d))
    as (Hrec2 & Hrun2 & Htrig2 & _ & Hcalls2 & _ & Hstarted2).
  exists f.
  destruct (frame_after_stop frame' env' (stopRecording (capturePass env d))) as [Hfin _];
    try assumption; try congruence.
  rewrite Hfin by (apply Hstarted2; exact Hstarted).
  rewrite Hcalls2, Hcalls, <- !app_assoc. reflexivity.
Qed.

(** C9.  On a connected controller that has not failed and whose encoder is idle,
    [startRecording] succeeds and itself makes no [initialize] and no [encodeFrame]
    call.  The encoder is started by the loop, on the first frame it processes while
    recording.  If [stopRecording] follows before any frame was processed, the pass
    after it makes no call on the encoder at all.  If one frame was processed in
    between, there is exactly one [initialize], one [encodeFrame] and one [finalize].
    And over any run after [startRecording], the [initialize] calls and the
    [encodeFrame] calls are each at most as many as the frames processed while
    recording, so there is none of either when no frame was. *)
Theorem recorder_started_lazily
  (fname : string) (opened : bool) (t0 now : Z) (frame frame' : Mat) (env env' : PassEnv)
  (after : list Step) (d : t) :
  connected d = true -> failed d = false -> checkRecTrigger d = false ->
  capturing d = running d -> encoderIdle d ->
  deliversFrame frame env -> deliversFrame frame' env' ->
  fst (startRecording fname opened t0 now d) = true
  /\ initializations (snd (startRecording fname opened t0 now d)) = initializations d
  /\ encodedFrames (snd (startRecording fname opened t0 now d)) = encodedFrames d
  /\ (exists f,
        recorderCalls (capturePass env (snd (startRecording fname opened t0 now d)))
        = recorderCalls (snd (startRecording fname opened t0 now d))
          ++ startCalls f (snd (startRecording fname opened t0 now d)) ++ [EncodeFrame f])
  /\ recorderCalls (steps [StopRecording; Pass env']
                      (snd (startRecording fname opened t0 now d)))
     = recorderCalls (snd (startRecording fname opened t0 now d))
  /\ (exists f,
        recorderCalls (steps [Pass env; StopRecording; Pass env']
                         (snd (startRecording fname opened t0 now d)))
        = recorderCalls (snd (startRecording fname opened t0 now d))
          ++ startCalls f (snd (startRecording fname opened t0 now d))
          ++ [EncodeFrame f; Finalize])
  /\ (List.length (initializations (steps after (snd (startRecording fname opened t0 now d))))
      + recordedPasses d
      <= List.length (initializations d)
         + recordedPasses (steps after (snd (startRecording fname opened t0 now d))))%nat
  /\ (List.length (encodedFrames (steps after (snd (startRecording fname opened t0 now d))))
      + recordedPasses d
      <= List.length (encodedFrames d)
         + recordedPasses (steps after (snd (startRecording fname opened t0 now d))))%nat
  /\ (recordedPasses (steps after (snd (startRecording fname opened t0 now d)))
      = recordedPasses d ->
      initializations (steps after (snd (startRecording fname opened t0 now d)))
      = initializations d
      /\ encodedFrames (steps after (snd (startRecording fname opened t0 now d)))
         = encodedFrames d).
Proof.
  intros Hconn Hfail Htrig Hcap Hidle Henv Henv'.
  destruct (startRecording_state fname opened t0 now d Hconn Hfail Hcap Hidle)
    as (Hok & Hcap1 & Hrun1 & Hrec1 & Htrig1 & Hidle1).
  rewrite Htrig in Htrig1.
  destruct (call_accounting (StartRecording fname opened t0 now) d ltac:(discriminate))
    as (Hp & Hi & He).
  change (step (StartRecording fname opened t0 now) d)
    with (snd (startRecording fname opened t0 now d)) in Hp, Hi, He.
  set (d1 := snd (startRecording fname opened t0 now d)) in *.
  destruct (steps_accounting after d1) as (Hmono & Hinits & Hencs & Hnone).
  rewrite Hp, Hi, He in *.
  split; [exact Hok |]. split; [reflexivity |]. split; [reflexivity |].
  split; [apply (first_frame_starts_encoder frame); assumption |].
  split; [apply (stopped_before_first_frame frame'); assumption |].
  split; [apply (one_frame_session frame frame'); assumption |].
  split; [exact Hinits |]. split; [exact Hencs |]. exact Hnone.
Qed.

(** ** Further properties of the controller and the loop *)

(** *** Passes of the loop, case by case *)

(** X3.  A pass in which [grab] fails calls [fail]: [failed] is set, [running] and
    [recording] are cleared, the message is "Failed to grab frame.", and the pass
    leaves the loop at once: the thread returns after one [finalize], and nothing is
    pushed into the ring buffer. *)
Theorem grab_failure_ends_loop (env : PassEnv) (d : t) :
  capturing d = true -> running d = true -> grabbed env = false ->
  failed (capturePass env d) = true
  /\ running (capturePass env d) = false
  /\ MiniScopeData.recording (capturePass env d) = false
  /\ capturing (capturePass env d) = false
  /\ lastMessage (capturePass env d) = Some "Failed to grab frame."%string
  /\ frameRing (capturePass env d) = frameRing d
  /\ recorderCalls (capturePass env d) = recorderCalls d ++ [Finalize].
Proof.
  intros Hcap Hrun Hgrab.
  destruct d, env. unfold capturing, running in *. cbn in Hcap, Hrun, Hgrab.
  destruct thread0 as [[? ? ? ? fin] |]; [| discriminate]. destruct fin; [discriminate |].
  subst.
  enter capturePass. unfold captureBody; base. rewrite checkTrigger_eq; base.
  unfold lastMessage; base. rewrite last_message_app.
  repeat split; destruct onMessageCallback0; reflexivity.
Qed.

(** X4.  A pass that drops its frame, the counter not being at the top of its type,
    pushes the placeholder image into the ring buffer, clears [recording], makes no
    call on the encoder, closes and reopens the camera (which is then open or not as
    the driver answers), and leaves the loop's clock readings as they were, so that
    the next frame rate is measured from the last retrieved frame. *)
Theorem dropped_frame_pass (env : PassEnv) (th : CaptureThread) (d : t) :
  thread d = Some th -> finished th = false -> running d = true -> dropsFrame env ->
  0 <= droppedFramesCount d < 2 ^ 64 - 1 ->
  frameRing (capturePass env d)
  = CircularBuffer.push_back droppedFrameImage (frameRing d)
  /\ MiniScopeData.recording (capturePass env d) = false
  /\ recorderCalls (capturePass env d) = recorderCalls d
  /\ isOpened (cam (capturePass env d)) = reopened env
  /\ sent (cam (capturePass env d)) = sent (cam d)
  /\ thread (capturePass env d) = Some th
  /\ currentFPS (capturePass env d) = currentFPS d.
Proof.
  intros Hth Hfin Hrun [Hgrab Hret] Hcount.
  destruct d, env, th. unfold running in *.
  cbn in Hth, Hfin, Hrun, Hgrab, Hret, Hcount. subst.
  assert (Hsucc := size_t_succ_small droppedFramesCount0 Hcount).
  enter capturePass. unfold captureBody; base.
  destruct retrieved0 as [frame | | what]; [exfalso; apply (Hret frame); reflexivity | |].
  all: base; rewrite checkTrigger_eq; base; rewrite frameDropped_eq; base.
  all: rewrite Hsucc.
  all: destruct (Z.gtb_spec (droppedFramesCount0 + 1) 0); [| lia].
  all: destruct (Z.gtb_spec (droppedFramesCount0 + 1) 80), cam0; repeat split.
Qed.

(** X5.  In a pass that delivers a frame, the external trigger decides [recording]
    when it is enabled: the flag becomes whether the status word has the trigger bits,
    and the start time is taken only when that starts a recording.  When the trigger is
    disabled the pass leaves the flag and the start time alone. *)
Theorem external_trigger_decides (frame : Mat) (env : PassEnv) (d : t) :
  capturing d = true -> running d = true -> deliversFrame frame env ->
  MiniScopeData.recording (capturePass env d)
  = (if checkRecTrigger d then triggered (gpio env) else MiniScopeData.recording d)
  /\ recordStart (capturePass env d)
     = (if checkRecTrigger d && triggered (gpio env) && negb (MiniScopeData.recording d)
        then triggerClock env else recordStart d).
Proof.
  intros Hcap Hrun (Hgrab & Hret & Hinit).
  destruct d, env. unfold capturing, running in *. cbn in Hcap, Hrun, Hgrab, Hret, Hinit.
  destruct thread0 as [[? ? ? ? fin] |]; [| discriminate]. destruct fin; [discriminate |].
  subst.
  enter capturePass. all: unfold captureBody; base.
  all: rewrite checkTrigger_eq; base; rewrite resendSettings_eq; base.
  all: rewrite visualize_eq; base; enter orchestrate.
  all: first [split; reflexivity | exfalso; congruence].
Qed.

(** X6.  A pass that delivers a frame after dropped ones sends the settings again, the
    exposure and the gain as the stored integers and, on a connected controller, the
    LED value of the stored excitation, and resets the counter; with the counter at
    zero it sends nothing. *)
Theorem settings_resent_after_drop (frame : Mat) (env : PassEnv) (d : t) :
  capturing d = true -> running d = true -> deliversFrame frame env ->
  sent (cam (capturePass env d))
  = sent (cam d)
    ++ (if droppedFramesCount d >? 0
        then [(CV_CAP_PROP_BRIGHTNESS, Num.to_double (MiniScopeData.exposure d));
              (CV_CAP_PROP_GAIN, Num.to_double (gain d))]
             ++ (if connected d then [(CV_CAP_PROP_HUE, ledPower (excitation d))] else [])
        else [])
  /\ droppedFramesCount (capturePass env d)
     = (if droppedFramesCount d >? 0 then 0 else droppedFramesCount d).
Proof.
  intros Hcap Hrun (Hgrab & Hret & Hinit).
  destruct d, env. unfold capturing, running in *. cbn in Hcap, Hrun, Hgrab, Hret, Hinit.
  destruct thread0 as [[? ? ? ? fin] |]; [| discriminate]. destruct fin; [discriminate |].
  subst.
  enter capturePass. all: unfold captureBody; base.
  all: rewrite checkTrigger_eq; base; rewrite resendSettings_eq; base.
  all: rewrite visualize_eq; base; enter orchestrate.
  all: first [ destruct cam0; split; rewrite <- ?app_assoc, ?app_nil_r; reflexivity
             | exfalso; congruence ].
Qed.

(** The frames of the visualisation step in grayscale mode. *)
Lemma frames_grey (frame : Mat) (d : t) :
  useColor d = false ->
  recordedFrame frame d = cvtColor_BGR2GRAY frame
  /\ displayedFrame frame d
     = convertTo_8U (cvtColor_BGR2GRAY frame)
         (PrimFloat.div 255 (Num.to_double (maxFluorDisplay d - minFluorDisplay d)))
         (PrimFloat.div (PrimFloat.mul (Num.to_double (- minFluorDisplay d)) 255)
            (Num.to_double (maxFluorDisplay d - minFluorDisplay d))).
Proof.
  intros Hgrey. unfold recordedFrame, displayedFrame. destruct d. cbn in Hgrey. subst.
  enter visualize. destruct (minMaxLoc (cvtColor_BGR2GRAY frame)). split; reflexivity.
Qed.

(** X7.  In grayscale mode, with the display bounds 0 and 255 of the constructor, a
    pass that retrieves a frame and runs to the end of the loop body records the
    extrema of the grey frame, pushes the grey frame rescaled by the factor 1 and the
    offset 0 into the ring buffer, and hands the grey frame, not rescaled, to the
    encoder, if it hands one. *)
Theorem grayscale_frames (env : PassEnv) (th : CaptureThread) (frame : Mat) (d : t) :
  useColor d = false -> minFluorDisplay d = 0 -> maxFluorDisplay d = 255 ->
  grabbed env = true -> retrieved env = Frame frame ->
  snd (captureBody env th d) = Continue ->
  frameRing (fst (fst (captureBody env th d)))
  = CircularBuffer.push_back (convertTo_8U (cvtColor_BGR2GRAY frame) 1 0) (frameRing d)
  /\ minFluor (fst (fst (captureBody env th d))) = fst (minMaxLoc (cvtColor_BGR2GRAY frame))
  /\ maxFluor (fst (fst (captureBody env th d))) = snd (minMaxLoc (cvtColor_BGR2GRAY frame))
  /\ if recordFrames (snd (fst (captureBody env th d)))
     then exists calls,
         recorderCalls (fst (fst (captureBody env th d)))
         = calls ++ [EncodeFrame (cvtColor_BGR2GRAY frame)]
     else encodedFrames (fst (fst (captureBody env th d))) = encodedFrames d.
Proof.
  intros Hgrey Hlo Hhi Hgrab Hret.
  destruct d, th, env. cbn in Hgrey, Hlo, Hhi, Hgrab, Hret. subst.
  unfold captureBody; base.
  rewrite checkTrigger_eq; base. rewrite resendSettings_eq; base.
  rewrite visualize_eq; base.
  match goal with
  | |- context [recordedFrame frame ?D] =>
      destruct (frames_grey frame D eq_refl) as [-> ->]
  end.
  base.
  change (PrimFloat.div 255 (Num.to_double (255 - 0))) with 1%float.
  change (PrimFloat.div (PrimFloat.mul (Num.to_double (- 0)) 255) (Num.to_double (255 - 0)))
    with 0%float.
  enter orchestrate.
  all: intros Hctl; try discriminate Hctl.
  all: split; [reflexivity |]. all: split; [reflexivity |]. all: split; [reflexivity |].
  all: try (eexists; reflexivity).
  all: rewrite ?filter_app; cbn [filter is_encode]; rewrite ?app_nil_r; reflexivity.
Qed.

(** The frames of the visualisation step in colour mode with a channel visible. *)
Lemma frames_masked (frame : Mat) (d : t) :
  useColor d = true -> showRed d || showGreen d || showBlue d = true ->
  List.length (planes frame) = 3%nat ->
  recordedFrame frame d = masked frame (showRed d) (showGreen d) (showBlue d)
  /\ displayedFrame frame d = frame.
Proof.
  intros Hcolor Hsome Hchan.
  destruct frame as [r c ps].
  destruct ps as [| b [| g [| r' [| ? ?]]]]; try discriminate Hchan.
  unfold recordedFrame, displayedFrame.
  destruct d. cbn in Hcolor, Hsome. subst.
  destruct showRed0, showGreen0, showBlue0; try discriminate Hsome.
  all: enter visualize; split; reflexivity.
Qed.

(** X8.  In colour mode with at least one channel visible, a pass that retrieves a
    three-channel frame and runs to the end of the loop body pushes the retrieved
    frame itself into the ring buffer, and the frame it hands to the encoder, if it
    hands one, is the retrieved frame with each hidden channel zeroed. *)
Theorem hidden_channels_zeroed_for_encoder
  (env : PassEnv) (th : CaptureThread) (frame : Mat) (d : t) :
  useColor d = true -> showRed d || showGreen d || showBlue d = true ->
  List.length (planes frame) = 3%nat ->
  grabbed env = true -> retrieved env = Frame frame ->
  snd (captureBody env th d) = Continue ->
  frameRing (fst (fst (captureBody env th d)))
  = CircularBuffer.push_back frame (frameRing d)
  /\ if recordFrames (snd (fst (captureBody env th d)))
     then exists calls,
         recorderCalls (fst (fst (captureBody env th d)))
         = calls ++ [EncodeFrame (masked frame (showRed d) (showGreen d) (showBlue d))]
     else encodedFrames (fst (fst (captureBody env th d))) = encodedFrames d.
Proof.
  intros Hcolor Hsome Hchan Hgrab Hret.
  destruct d, th, env. cbn in Hcolor, Hsome, Hgrab, Hret. subst.
  unfold captureBody; base.
  rewrite checkTrigger_eq; base. rewrite resendSettings_eq; base.
  rewrite visualize_eq; base.
  match goal with
  | |- context [recordedFrame frame ?D] =>
      destruct (frames_masked frame D eq_refl Hsome Hchan) as [-> ->]
  end.
  base. enter orchestrate.
  all: intros Hctl; try discriminate Hctl.
  all: split; [reflexivity |].
  all: try (eexists; reflexivity).
  all: rewrite ?filter_app; cbn [filter is_encode]; rewrite ?app_nil_r; reflexivity.
Qed.

(** X9.  When the encoder fails to start on the first frame of a recording, the pass
    calls [fail] with the reason, leaves the loop without pushing the frame into the
    ring buffer and without encoding it, and the thread returns after [finalize]. *)
Theorem encoder_start_failure (frame : Mat) (what : string) (env : PassEnv) (d : t) :
  capturing d = true -> running d = true -> MiniScopeData.recording d = true ->
  checkRecTrigger d = false -> encoderIdle d ->
  grabbed env = true -> retrieved env = Frame frame -> initError env = Some what ->
  failed (capturePass env d) = true
  /\ running (capturePass env d) = false
  /\ MiniScopeData.recording (capturePass env d) = false
  /\ capturing (capturePass env d) = false
  /\ lastMessage (capturePass env d)
     = Some ("Unable to initialize recording: " ++ what)%string
  /\ frameRing (capturePass env d) = frameRing d
  /\ encodedFrames (capturePass env d) = encodedFrames d
  /\ exists f,
      recorderCalls (capturePass env d)
      = recorderCalls d
        ++ [SetCodec (videoCodec d); SetContainer (videoContainer d);
            SetLossless (recordLossless d);
            Initialize (videoFname d) (cols f) (rows f) (fps d) (channels f =? 3) false;
            Finalize].
Proof.
  intros Hcap Hrun Hrec Htrig Hidle Hgrab Hret Hinit.
  destruct d, env. unfold capturing, running, encoderIdle in *.
  cbn in Hcap, Hrun, Hrec, Htrig, Hidle, Hgrab, Hret, Hinit.
  destruct thread0 as [[ct pt [ini] rf fin] |]; [| discriminate].
  destruct fin; [discriminate |].
  destruct Hidle as [Hidle | [Hini Hrf]]; [discriminate |]. cbn in Hini, Hrf. subst.
  enter capturePass. all: unfold captureBody; base.
  all: rewrite checkTrigger_eq; base; rewrite resendSettings_eq; base.
  all: rewrite visualize_eq; base; enter orchestrate.
  all: unfold lastMessage; base; rewrite last_message_app.
  all: repeat split; try reflexivity.
  all: try (calls; reflexivity).
  all: eexists; rewrite <- !app_assoc; reflexivity.
Qed.

(** The frame rate computed for a delay of 1 to 1000 milliseconds is the integer
    quotient of 1000 by the delay. *)
Lemma fpsTable_true : fpsTable = true.
Proof. vm_compute. reflexivity. Qed.

Lemma fpsOfDelay_quotient (delay : Z) :
  1 <= delay <= 1000 -> fpsOfDelay delay = Some (1000 / delay).
Proof.
  intros Hd. pose proof fpsTable_true as T. unfold fpsTable in T.
  rewrite forallb_forall in T. specialize (T (Z.to_nat delay)).
  rewrite Z2Nat.id in T by lia.
  assert (Hin : In (Z.to_nat delay) (seq 1 1000)) by (apply in_seq; lia).
  specialize (T Hin). destruct (fpsOfDelay delay) as [f |]; [| discriminate].
  apply Z.eqb_eq in T. subst. reflexivity.
Qed.

(** X10.  A pass that retrieves a frame between 1 and 1000 milliseconds after the
    previous retrieved one stores as [currentFPS] the integer quotient of 1000 by the
    delay in milliseconds. *)
Theorem currentFPS_is_quotient
  (frame : Mat) (env : PassEnv) (th : CaptureThread) (d : t) :
  thread d = Some th -> finished th = false -> running d = true ->
  grabbed env = true -> retrieved env = Frame frame ->
  1 <= milliseconds (currentTime th) (clock env) <= 1000 ->
  currentFPS (capturePass env d)
  = Some (1000 / milliseconds (currentTime th) (clock env)).
Proof.
  intros Hth Hfin Hrun Hgrab Hret Hms.
  rewrite <- (fpsOfDelay_quotient _ Hms). clear Hms.
  destruct d, th, env. unfold running in *. cbn in Hth, Hfin, Hrun, Hgrab, Hret. subst.
  enter capturePass. all: unfold captureBody; base.
  all: rewrite checkTrigger_eq; base; rewrite resendSettings_eq; base.
  all: rewrite visualize_eq; base; enter orchestrate; reflexivity.
Qed.

(** *** Calls of the public interface *)

(** X11.  [connect()] on a controller that is not connected sends the sensor set-up
    command, the exposure 100 as 1.0, the gain as 32 / 100, and then the LED value 0:
    the excitation 1 it stores is set before [connected] and so is not sent.  It
    announces the camera by its index. *)
Theorem connect_initializes (opened : bool) (d : t) :
  connected d = false ->
  sent (cam (snd (connect opened d)))
  = sent (cam d)
    ++ [(CV_CAP_PROP_SATURATION, Num.to_double SET_CMOS_SETTINGS);
        (CV_CAP_PROP_BRIGHTNESS, 1%float);
        (CV_CAP_PROP_GAIN, PrimFloat.div (Num.to_double 32) (Num.to_double 100));
        (CV_CAP_PROP_HUE, 0%float)]
  /\ exposure (snd (connect opened d)) = 100
  /\ gain (snd (connect opened d)) = 32
  /\ excitation (snd (connect opened d)) = 1
  /\ lastMessage (snd (connect opened d))
     = Some ("Initialized camera " ++ Num.show (scopeCamId d))%string.
Proof.
  intros Hconn. destruct d. cbn in Hconn. subst.
  enter connect. all: enter setLed.
  all: unfold lastMessage; base; rewrite last_message_app.
  all: destruct cam0; repeat split; rewrite <- ?app_assoc; reflexivity.
Qed.

(** X12.  [disconnect()] stops the loop and releases the camera but leaves [connected]
    as it was, so a [connect()] right after it is refused exactly when the controller
    was connected before. *)
Theorem disconnect_keeps_connected (opened : bool) (d : t) :
  connected (disconnect d) = connected d
  /\ running (disconnect d) = false
  /\ MiniScopeData.recording (disconnect d) = false
  /\ thread (disconnect d) = None
  /\ isOpened (cam (disconnect d)) = false
  /\ failed (disconnect d) = failed d
  /\ fst (connect opened (disconnect d)) = negb (connected d).
Proof.
  destruct d. enter disconnect. all: enter stop. all: enter finishCaptureThread.
  all: enter connect. all: try enter setLed. all: repeat split.
Qed.

(** X13.  [run()] on a connected controller that has not failed returns true with the
    loop running in a thread of its own that has a writer not yet started and the
    dropped-frame counter at zero; a thread still in its loop is joined first, which
    makes it finalize its writer.  [recording] is left as it was. *)
Theorem run_starts_fresh_thread (opened : bool) (t0 : Z) (d : t) :
  connected d = true -> failed d = false ->
  fst (run opened t0 d) = true
  /\ running (snd (run opened t0 d)) = true
  /\ thread (snd (run opened t0 d))
     = Some {| currentTime := t0; previousTime := t0; vwriter := fresh;
               recordFrames := false; finished := false |}
  /\ droppedFramesCount (snd (run opened t0 d)) = 0
  /\ MiniScopeData.recording (snd (run opened t0 d)) = MiniScopeData.recording d
  /\ recorderCalls (snd (run opened t0 d))
     = recorderCalls d ++ (if capturing d then [Finalize] else []).
Proof.
  intros Hconn Hfail. destruct d. cbn in Hconn, Hfail. subst.
  enter run. all: enter startCaptureThread. all: enter finishCaptureThread.
  all: repeat split; rewrite ?app_nil_r; try reflexivity.
Qed.

(** X14.  A [startRecording(fname)] that succeeds takes [fname] as the file name unless
    it is empty, in which case the file name set before is kept, and stores the clock
    reading as the start of the recording. *)
Theorem startRecording_file (fname : string) (opened : bool) (t0 now : Z) (d : t) :
  fst (startRecording fname opened t0 now d) = true ->
  videoFname (snd (startRecording fname opened t0 now d))
  = (if String.eqb fname "" then videoFname d else fname)
  /\ recordStart (snd (startRecording fname opened t0 now d)) = now
  /\ MiniScopeData.recording (snd (startRecording fname opened t0 now d)) = true
  /\ running (snd (startRecording fname opened t0 now d)) = true.
Proof.
  destruct d. enter startRecording.
  all: try enter run.
  all: try enter disconnect. all: try enter stop.
  all: try enter startCaptureThread. all: try enter finishCaptureThread.
  all: try enter connect.
  all: intros Hok; try discriminate Hok; repeat split.
Qed.

(** X15.  On a failed controller [startRecording()] returns false and leaves
    [recording] cleared. *)
Theorem startRecording_on_failed (fname : string) (opened : bool) (t0 now : Z) (d : t) :
  connected d = true -> failed d = true -> running d = false ->
  fst (startRecording fname opened t0 now d) = false
  /\ MiniScopeData.recording (snd (startRecording fname opened t0 now d)) = false
  /\ running (snd (startRecording fname opened t0 now d)) = false.
Proof.
  intros Hconn Hfail Hrun. destruct d. unfold running in *. cbn in Hconn, Hfail, Hrun.
  subst.
  enter startRecording. all: enter run.
  all: enter disconnect. all: enter stop. all: enter finishCaptureThread.
  all: enter connect. all: repeat split.
Qed.


(** X17.  The destructor joins the thread, stores the excitation 0, sending the LED
    value 0 if the controller is connected, and releases the camera. *)
Theorem destructor_shuts_down (d : t) :
  thread (destructor d) = None
  /\ running (destructor d) = false
  /\ MiniScopeData.recording (destructor d) = false
  /\ excitation (destructor d) = 0
  /\ isOpened (cam (destructor d)) = false
  /\ sent (cam (destructor d))
     = sent (cam d) ++ (if connected d then [(CV_CAP_PROP_HUE, 0%float)] else [])
  /\ recorderCalls (destructor d)
     = recorderCalls d ++ (if capturing d then [Finalize] else []).
Proof.
  destruct d, cam0. unfold destructor. enter finishCaptureThread.
  all: enter setLed. all: enter disconnect. all: enter stop.
  all: try enter finishCaptureThread.
  all: repeat split; rewrite ?app_nil_r; reflexivity.
Qed.

(** *** What every run keeps *)

(** Evaluates a step of the controller on a state given field by field, along every
    path through the code: the calls of the public interface, and a pass of the loop
    through the thread's states, a failed grab, a dropped and a delivered frame. *)
Ltac explore_call :=
  enter step;
  try enter startRecording; try enter run; try enter disconnect; try enter stop;
  try enter startCaptureThread; try enter finishCaptureThread; try enter connect;
  try enter setLed; try enter currentFrame.

Ltac explore_pass env :=
  let gr := fresh "gr" in
  let rt := fresh "rt" in
  destruct env as [? ? gr rt ? ? ?];
  enter step; enter capturePass;
  try (unfold captureBody; base; rewrite checkTrigger_eq; base;
       destruct gr; base;
       try (destruct rt as [? | | ?]; base;
            first [ rewrite frameDropped_eq; base
                  | rewrite resendSettings_eq; base; rewrite visualize_eq; base;
                    enter orchestrate ])).

Ltac explore s :=
  destruct s as [ | | | | | | | | | | | | | | env]; [explore_call .. | explore_pass env].

Lemma connected_stays_step (s : Step) (d : t) :
  connected d = true -> connected (step s d) = true.
Proof.
  intros Hc. destruct d. cbn in Hc. subst. explore s; reflexivity.
Qed.

(** X18.  No call of the public interface and no pass of the loop clears [connected]:
    once connected, a controller stays connected over every run, [disconnect()]
    included. *)
Theorem connected_is_never_cleared (ss : list Step) (d : t) :
  connected d = true -> connected (steps ss d) = true.
Proof.
  revert d. induction ss as [| s ss IH]; intros d Hc; [exact Hc |].
  change (steps (s :: ss) d) with (steps ss (step s d)).
  apply IH, connected_stays_step, Hc.
Qed.






Lemma push_back_bounded {A} (x : A) (b : CircularBuffer.t A) :
  CircularBuffer.capacity b = 64%nat -> (CircularBuffer.size b <= 64)%nat ->
  CircularBuffer.capacity (CircularBuffer.push_back x b) = 64%nat
  /\ (CircularBuffer.size (CircularBuffer.push_back x b) <= 64)%nat.
Proof.
  destruct b as [cap l]. unfold CircularBuffer.push_back, CircularBuffer.size.
  cbn [CircularBuffer.capacity CircularBuffer.elems].
  intros -> Hsize. cbn [Nat.eqb].
  destruct (Nat.ltb_spec (List.length l) 64);
    cbn [CircularBuffer.capacity CircularBuffer.elems]; rewrite length_app; cbn [List.length].
  - split; [reflexivity | lia].
  - split; [reflexivity |]. destruct l; cbn [tl List.length] in *; lia.
Qed.
Lemma pop_front_bounded {A} (b : CircularBuffer.t A) :
  CircularBuffer.capacity b = 64%nat -> (CircularBuffer.size b <= 64)%nat ->
  CircularBuffer.capacity (CircularBuffer.pop_front b) = 64%nat
  /\ (CircularBuffer.size (CircularBuffer.pop_front b) <= 64)%nat.
Proof.
  destruct b as [cap l]. unfold CircularBuffer.pop_front, CircularBuffer.size.
  cbn [CircularBuffer.capacity CircularBuffer.elems].
  intros -> Hsize. split; [reflexivity |]. destruct l; cbn [tl List.length] in *; lia.
Qed.

Lemma ringBounded_step (s : Step) (d : t) : ringBounded d -> ringBounded (step s d).
Proof.
  unfold ringBounded. intros [Hcap Hsize]. destruct d. cbn in Hcap, Hsize.
  explore s; base.
  all: first [ split; assumption
             | apply push_back_bounded; assumption
             | apply pop_front_bounded; assumption ].
Qed.

(** X21.  Over every run from the constructed controller the ring buffer keeps its 64
    places and never holds more than 64 frames. *)
Theorem ring_stays_bounded (ss : list Step) : ringBounded (steps ss init).
Proof.
  assert (H : forall d, ringBounded d -> ringBounded (steps ss d)).
  { induction ss as [| s ss IH]; intros d Hd; [exact Hd |].
    change (steps (s :: ss) d) with (steps ss (step s d)).
    apply IH, ringBounded_step, Hd. }
  apply H. unfold ringBounded, CircularBuffer.size. cbn. split; [reflexivity | lia].
Qed.

(** *** The calls on the encoder *)

Lemma protocol_app (l l' : list Recorder.Call) :
  protocol (l ++ l') = fold_left protocolStep l' (protocol l).
Proof. unfold protocol. apply fold_left_app. Qed.

Ltac thread_fields :=
  cbn [MiniScopeData.thread MiniScopeData.recorderCalls finished vwriter initialized
       recordFrames negb andb fold_left protocolStep] in *.

Lemma encoder_step (s : Step) (d : t) :
  writerCoherent d /\ protocol (recorderCalls d) = Some (encoderLive d) ->
  writerCoherent (step s d)
  /\ protocol (recorderCalls (step s d)) = Some (encoderLive (step s d)).
Proof.
  unfold writerCoherent, encoderLive. intros [Hco Hp]. destruct d. thread_fields.
  explore s; base; rewrite ?protocol_app.
  all: subst; thread_fields.
  all: try (specialize (Hco eq_refl); subst).
  all: rewrite ?Hp; thread_fields.
  all: split; [ first [exact I | intros; congruence || reflexivity] | reflexivity ].
Qed.

(** X22.  Over every run from the constructed controller the calls made on the encoder
    keep to the writer's discipline: the settings and [initialize] only reach a writer
    that is not started, [encodeFrame] only one whose [initialize] has succeeded and
    that was not finalized since; and the writer is started exactly while the thread
    is in its loop with an initialized writer. *)
Theorem encoder_protocol_kept (ss : list Step) :
  protocol (recorderCalls (steps ss init)) = Some (encoderLive (steps ss init)).
Proof.
  assert (H : forall d,
             writerCoherent d /\ protocol (recorderCalls d) = Some (encoderLive d) ->
             writerCoherent (steps ss d)
             /\ protocol (recorderCalls (steps ss d)) = Some (encoderLive (steps ss d))).
  { induction ss as [| s ss IH]; intros d Hd; [exact Hd |].
    change (steps (s :: ss) d) with (steps ss (step s d)).
    apply IH, encoder_step, Hd. }
  apply H. split; [exact I | reflexivity].
Qed.

(** *** Reading the ring buffer *)

Lemma currentFrame_front (d : t) :
  currentFrame d
  = match CircularBuffer.elems (frameRing d) with
    | [] => (Cv.empty, d)
    | frame :: rest =>
        (frame,
         set_frameRing {| CircularBuffer.capacity := CircularBuffer.capacity (frameRing d);
                          CircularBuffer.elems := rest |} d)
    end.
Proof.
  unfold currentFrame, CircularBuffer.size, CircularBuffer.front, CircularBuffer.pop_front.
  destruct (CircularBuffer.elems (frameRing d)); reflexivity.
Qed.

(** [n] reads give the frames in the buffer from its front, then empty matrices, and
    leave the frames not read. *)
Lemma takeFrames_elems (n : nat) (d : t) :
  fst (takeFrames n d)
  = firstn n (CircularBuffer.elems (frameRing d))
    ++ repeat Cv.empty (n - CircularBuffer.size (frameRing d))
  /\ CircularBuffer.elems (frameRing (snd (takeFrames n d)))
     = skipn n (CircularBuffer.elems (frameRing d)).
Proof.
  revert d. induction n as [| n IH]; intros d; [split; reflexivity |].
  cbn [takeFrames]. rewrite currentFrame_front. unfold CircularBuffer.size in *.
  destruct (CircularBuffer.elems (frameRing d)) as [| frame rest] eqn:Hl.
  - specialize (IH d). rewrite Hl in IH. destruct (takeFrames n d) as [frames d'].
    cbn [fst snd] in *. destruct IH as [IH1 IH2]. rewrite IH1, IH2.
    rewrite !firstn_nil, !skipn_nil. cbn [List.length app]. rewrite Nat.sub_0_r.
    split; reflexivity.
  - match goal with |- context [takeFrames n ?x] => specialize (IH x) end.
    rewrite frameRing_set in IH. cbn [CircularBuffer.elems] in IH.
    match goal with |- context [takeFrames n ?x] => destruct (takeFrames n x) as [frames d'] end.
    cbn [fst snd] in *. destruct IH as [IH1 IH2]. rewrite IH1, IH2.
    split; reflexivity.
Qed.

(** X23.  Frames pushed into the empty ring buffer and then read with as many calls of
    [currentFrame()] come out in the order pushed, each once, as long as there were at
    most 64; of more, the newest 64 come out in order and the reads left over return
    the empty matrix.  The buffer is empty afterwards. *)
Theorem frames_read_in_order (frames : list Mat) (d : t) :
  frameRing d = CircularBuffer.make 64 ->
  fst (takeFrames (List.length frames) (pushFrames frames d))
  = skipn (List.length frames - 64) frames
    ++ repeat Cv.empty (List.length frames - 64)
  /\ CircularBuffer.size
       (frameRing (snd (takeFrames (List.length frames) (pushFrames frames d)))) = 0%nat.
Proof.
  intros Hring.
  destruct (takeFrames_elems (List.length frames) (pushFrames frames d)) as [Hread Hleft].
  assert (Helems : CircularBuffer.elems (frameRing (pushFrames frames d))
                   = skipn (List.length frames - 64) frames).
  { rewrite pushFrames_ring, Hring.
    rewrite pushAll_elems by (unfold CircularBuffer.size; cbn; lia). reflexivity. }
  unfold CircularBuffer.size in *. rewrite Helems in Hread, Hleft.
  assert (Hlen : List.length (skipn (List.length frames - 64) frames)
                 = (List.length frames - (List.length frames - 64))%nat)
    by apply length_skipn.
  split.
  - rewrite Hread, Hlen. rewrite firstn_all2 by lia. f_equal. f_equal. lia.
  - rewrite Hleft. rewrite length_skipn, Hlen. lia.
Qed.

End Controller.

(** ** The statements on concrete inputs *)

Local Abbreviation sampleBody :=
  (captureBody sampleTrigger placeholder sampleGray sampleExtrema sampleScale).
Local Abbreviation samplePass :=
  (capturePass sampleTrigger placeholder sampleGray sampleExtrema sampleScale).
Local Abbreviation samplePasses :=
  (passes sampleTrigger placeholder sampleGray sampleExtrema sampleScale).
Local Abbreviation sampleSteps :=
  (steps sampleSetup sampleTrigger placeholder sampleGray sampleExtrema sampleScale).

(** C1, on the controller [broken]: with a device that would open, [run()] returns
    false and the controller stays failed, with no capture thread. *)
Lemma run_cannot_recover_broken :
  fst (run sampleSetup true 0 broken) = false
  /\ failed (snd (run sampleSetup true 0 broken)) = true
  /\ connected (snd (run sampleSetup true 0 broken)) = true
  /\ running (snd (run sampleSetup true 0 broken)) = false
  /\ thread (snd (run sampleSetup true 0 broken)) = None
  /\ isOpened (cam (snd (run sampleSetup true 0 broken))) = false.
Proof.
  exact (run_cannot_recover sampleSetup true 0 broken eq_refl eq_refl).
Defined.

(** X1, on the controller [broken]: a run of further calls leaves [failed] set. *)
Lemma failed_is_never_cleared_broken :
  failed (sampleSteps [Run true 0; Stop; Connect true; Run true 1; Pass dropped] broken)
  = true.
Proof.
  exact (failed_is_never_cleared sampleSetup sampleTrigger placeholder sampleGray
           sampleExtrema sampleScale
           [Run true 0; Stop; Connect true; Run true 1; Pass dropped] broken eq_refl).
Defined.

(** C2 as stated fails: when the device does not open, [connect()] on a fresh
    controller still returns success and leaves [connected] set, on a closed camera. *)
Lemma connect_ignores_open_failure :
  fst (connect sampleSetup false init) = true
  /\ connected (snd (connect sampleSetup false init)) = true
  /\ isOpened (cam (snd (connect sampleSetup false init))) = false.
Proof. vm_compute. repeat split. Qed.

(** C3, on 80 and on 81 dropped frames from the start of the loop. *)
Lemma drop_ceiling_at_80_and_81 :
  (running (samplePasses (repeat dropped 80) previewing) = true
   /\ failed (samplePasses (repeat dropped 80) previewing) = false
   /\ droppedFramesCount (samplePasses (repeat dropped 80) previewing) = 80
   /\ droppedFramesCount
        (samplePass (delivered pixel 5) (samplePasses (repeat dropped 80) previewing)) = 0
   /\ failed (samplePass (delivered pixel 5) (samplePasses (repeat dropped 80) previewing))
      = false)
  /\ (failed (samplePasses (repeat dropped 81) previewing) = true
      /\ running (samplePasses (repeat dropped 81) previewing) = false
      /\ capturing (samplePass dropped (samplePasses (repeat dropped 81) previewing)) = false).
Proof.
  assert (Hdrops : forall n, Forall dropsFrame (repeat dropped n)).
  { intros n. apply Forall_forall. intros env Hin. apply repeat_spec in Hin. subst env.
    split; [reflexivity | discriminate]. }
  assert (Hok : deliversFrame pixel (delivered pixel 5)) by (repeat split).
  split.
  - destruct (drop_ceiling sampleTrigger placeholder sampleGray sampleExtrema sampleScale
                (repeat dropped 80) pixel (delivered pixel 5) dropped previewing
                eq_refl eq_refl eq_refl eq_refl (Hdrops 80%nat)
                ltac:(rewrite repeat_length; lia) Hok)
      as (_ & Hcount & Hrest).
    rewrite repeat_length in Hcount, Hrest. cbn [Nat.leb] in Hrest.
    destruct Hrest as (Hrun & Hfail & Hzero & _ & Hfail' & _).
    repeat split; assumption.
  - destruct (drop_ceiling sampleTrigger placeholder sampleGray sampleExtrema sampleScale
                (repeat dropped 81) pixel (delivered pixel 5) dropped previewing
                eq_refl eq_refl eq_refl eq_refl (Hdrops 81%nat)
                ltac:(rewrite repeat_length; lia) Hok)
      as (_ & _ & Hrest).
    rewrite repeat_length in Hrest. cbn [Nat.leb] in Hrest.
    destruct Hrest as (Hfail & Hrun & _ & _ & Hend).
    repeat split; assumption.
Defined.

(** C4 as stated fails.  With the red channel hidden, the frame pushed into the ring
    buffer is the retrieved pixel with its red intact, and the frame given to the
    encoder is the one with red zeroed; with all three channels hidden, the frame
    pushed is still the retrieved pixel, not a black one. *)
Lemma color_transform_misses_display :
  CircularBuffer.elems
    (frameRing (fst (fst (sampleBody (delivered pixel 5) encoding (colouring false true)))))
  = [pixel]
  /\ recorderCalls (fst (fst (sampleBody (delivered pixel 5) encoding (colouring false true))))
     = [EncodeFrame pixelNoRed]
  /\ pixelNoRed <> pixel
  /\ CircularBuffer.elems
       (frameRing (fst (fst (sampleBody (delivered pixel 5) encoding (colouring false false)))))
     = [pixel]
  /\ pixel <> {| rows := 1; cols := 1; planes := [[0]; [0]; [0]] |}.
Proof.
  split; [vm_compute; reflexivity |]. split; [vm_compute; reflexivity |].
  split; [discriminate |]. split; [vm_compute; reflexivity | discriminate].
Qed.

(** C4 (as amended), with all three channels hidden. *)
Lemma color_frames_all_hidden :
  frameRing (fst (fst (sampleBody (delivered pixel 5) encoding (colouring false false))))
  = CircularBuffer.push_back pixel (frameRing (colouring false false))
  /\ exists calls,
      recorderCalls (fst (fst (sampleBody (delivered pixel 5) encoding (colouring false false))))
      = calls ++ [EncodeFrame pixel].
Proof.
  exact (color_frames_when_flags_agree sampleTrigger placeholder sampleGray sampleExtrema
           sampleScale (delivered pixel 5) encoding pixel (colouring false false)
           eq_refl eq_refl eq_refl eq_refl eq_refl eq_refl eq_refl).
Defined.

(** C5 as stated fails: a negative exposure is stored as it is, outside 1 to 100. *)
Lemma setExposure_keeps_negative :
  exposure (setExposure (-5) init) = -5 /\ clamp (-5) 1 100 = 1.
Proof. split; reflexivity. Qed.

(** C6 as stated fails: for the inputs -1 and -2, which both clamp to 0, a connected
    device is sent two different values, both below 0. *)
Lemma setLed_sends_negative :
  sent (cam (setLed (-1) (set_connected true init))) = [(CV_CAP_PROP_HUE, ledPower (-1))]
  /\ PrimFloat.ltb (ledPower (-1)) 0 = true
  /\ clamp (-1) 0 100 = clamp (-2) 0 100
  /\ PrimFloat.ltb (ledPower (-2)) (ledPower (-1)) = true.
Proof. repeat split; vm_compute; reflexivity. Qed.

(** C6 (as amended), for the inputs 10 and 60. *)
Lemma setLed_sends_10_60 :
  sent (cam (setLed 60 (set_connected true init)))
  = sent (cam (set_connected true init)) ++ [(CV_CAP_PROP_HUE, ledPower (clamp 60 0 100))]
  /\ PrimFloat.leb 0 (ledPower 60) = true
  /\ PrimFloat.leb (ledPower 60) 0.5 = true
  /\ PrimFloat.leb (ledPower 10) (ledPower 60) = true
  /\ (clamp 10 0 100 < clamp 60 0 100 -> PrimFloat.ltb (ledPower 10) (ledPower 60) = true).
Proof.
  exact (setLed_sends 10 60 (set_connected true init) ltac:(lia) ltac:(lia) eq_refl).
Defined.

(** C7, on the frames numbered 0 to 64 pushed into a fresh controller. *)
Lemma frameRing_fifo_65 :
  CircularBuffer.capacity (frameRing init) = 64%nat
  /\ CircularBuffer.elems (frameRing (pushFrames (map numbered (seq 0 65)) init))
     = map numbered (seq 1 64)
  /\ fst (currentFrame (pushFrames (map numbered (seq 0 65)) init)) = numbered 1
  /\ CircularBuffer.elems
       (frameRing (snd (currentFrame (pushFrames (map numbered (seq 0 65)) init))))
     = map numbered (seq 2 63)
  /\ currentFrame init = (Cv.empty, init).
Proof.
  exact (frameRing_fifo (numbered 0) (map numbered (seq 1 64)) init eq_refl eq_refl).
Defined.

(** C8 as stated fails: two retrieves 0.4 ms apart give a delay of 0 ms, the divisor
    0.0 and the quotient +infinity, and the pass leaves [currentFPS] undetermined. *)
Lemma currentFPS_divides_by_zero :
  milliseconds 0 400000 = 0
  /\ delaySeconds (milliseconds 0 400000) = 0%float
  /\ framesPerSecond (milliseconds 0 400000) = infinity
  /\ currentFPS (samplePass (delivered pixel 400000) previewing) = None.
Proof. repeat split; vm_compute; reflexivity. Qed.

(** C8 (as amended), on the same pass. *)
Lemma currentFPS_unguarded_sample :
  delaySeconds 0 = 0%float
  /\ framesPerSecond 0 = infinity
  /\ currentFPS (samplePass (delivered pixel 400000) previewing) = None.
Proof.
  exact (currentFPS_unguarded sampleTrigger placeholder sampleGray sampleExtrema sampleScale
           (delivered pixel 400000)
           {| currentTime := 0; previousTime := 0; vwriter := fresh; recordFrames := false;
              finished := false |}
           pixel previewing eq_refl eq_refl eq_refl eq_refl eq_refl eq_refl).
Defined.

(** C9, on the controller [previewing]: [startRecording] then [stopRecording] then a
    frame makes no call on the encoder, and with a frame in between there is one
    [initialize], one [encodeFrame] and one [finalize]. *)
Lemma recorder_started_lazily_previewing :
  fst (startRecording sampleSetup "a.mkv" true 0 0 previewing) = true
  /\ initializations (snd (startRecording sampleSetup "a.mkv" true 0 0 previewing)) = []
  /\ recorderCalls
       (sampleSteps [StopRecording; Pass (delivered pixel 9)]
          (snd (startRecording sampleSetup "a.mkv" true 0 0 previewing)))
     = recorderCalls (snd (startRecording sampleSetup "a.mkv" true 0 0 previewing))
  /\ exists f,
      recorderCalls
        (sampleSteps [Pass (delivered pixel 5); StopRecording; Pass (delivered pixel 9)]
           (snd (startRecording sampleSetup "a.mkv" true 0 0 previewing)))
      = recorderCalls (snd (startRecording sampleSetup "a.mkv" true 0 0 previewing))
        ++ startCalls f (snd (startRecording sampleSetup "a.mkv" true 0 0 previewing))
        ++ [EncodeFrame f; Finalize].
Proof.
  destruct (recorder_started_lazily sampleSetup sampleTrigger placeholder sampleGray
              sampleExtrema sampleScale "a.mkv" true 0 0 pixel pixel
              (delivered pixel 5) (delivered pixel 9) [] previewing
              eq_refl eq_refl eq_refl eq_refl
              (or_intror (conj eq_refl eq_refl))
              (conj eq_refl (conj eq_refl eq_refl))
              (conj eq_refl (conj eq_refl eq_refl)))
    as (Hok & Hinit & _ & _ & Hnone & Hone & _).
  split; [exact Hok |]. split; [exact Hinit |]. split; [exact Hnone | exact Hone].
Defined.

(** X3, on the controller [previewing]: a failed grab ends the loop. *)
Lemma grab_failure_ends_loop_previewing :
  failed (samplePass ungrabbed previewing) = true
  /\ running (samplePass ungrabbed previewing) = false
  /\ MiniScopeData.recording (samplePass ungrabbed previewing) = false
  /\ capturing (samplePass ungrabbed previewing) = false
  /\ lastMessage (samplePass ungrabbed previewing) = Some "Failed to grab frame."%string
  /\ frameRing (samplePass ungrabbed previewing) = frameRing previewing
  /\ recorderCalls (samplePass ungrabbed previewing) = recorderCalls previewing ++ [Finalize].
Proof.
  exact (grab_failure_ends_loop sampleTrigger placeholder sampleGray sampleExtrema
           sampleScale ungrabbed previewing eq_refl eq_refl eq_refl).
Defined.

(** X4, on the controller [previewing]: a dropped frame puts the placeholder into the
    ring buffer and leaves the loop's locals as they were. *)
Lemma dropped_frame_pass_previewing :
  frameRing (samplePass dropped previewing)
  = CircularBuffer.push_back placeholder (frameRing previewing)
  /\ MiniScopeData.recording (samplePass dropped previewing) = false
  /\ recorderCalls (samplePass dropped previewing) = recorderCalls previewing
  /\ isOpened (cam (samplePass dropped previewing)) = true
  /\ sent (cam (samplePass dropped previewing)) = sent (cam previewing)
  /\ thread (samplePass dropped previewing) = Some entered
  /\ currentFPS (samplePass dropped previewing) = currentFPS previewing.
Proof.
  refine (dropped_frame_pass sampleTrigger placeholder sampleGray sampleExtrema sampleScale
            dropped entered previewing eq_refl eq_refl eq_refl _ _).
  - split; [reflexivity | discriminate].
  - change (droppedFramesCount previewing) with 0. lia.
Defined.

(** X5, on the controller [previewing] with the trigger enabled: a status word with
    the trigger bits starts a recording, at the clock read with it. *)
Lemma external_trigger_decides_previewing :
  MiniScopeData.recording
    (samplePass (triggering pixel 5) (set_checkRecTrigger true previewing)) = true
  /\ recordStart (samplePass (triggering pixel 5) (set_checkRecTrigger true previewing)) = 7.
Proof.
  exact (external_trigger_decides sampleTrigger placeholder sampleGray sampleExtrema
           sampleScale pixel (triggering pixel 5) (set_checkRecTrigger true previewing)
           eq_refl eq_refl (conj eq_refl (conj eq_refl eq_refl))).
Defined.

(** X6, on the controller [previewing] after three dropped frames: the three settings
    are sent again and the counter is back at zero. *)
Lemma settings_resent_after_three_drops :
  sent (cam (samplePass (delivered pixel 5) (set_droppedFramesCount 3 previewing)))
  = sent (cam (set_droppedFramesCount 3 previewing))
    ++ [(CV_CAP_PROP_BRIGHTNESS, Num.to_double 100); (CV_CAP_PROP_GAIN, Num.to_double 32)]
    ++ [(CV_CAP_PROP_HUE, ledPower 1)]
  /\ droppedFramesCount
       (samplePass (delivered pixel 5) (set_droppedFramesCount 3 previewing)) = 0.
Proof.
  exact (settings_resent_after_drop sampleTrigger placeholder sampleGray sampleExtrema
           sampleScale pixel (delivered pixel 5) (set_droppedFramesCount 3 previewing)
           eq_refl eq_refl (conj eq_refl (conj eq_refl eq_refl))).
Defined.

(** X7, on the controller [previewing], which is in grayscale mode and not recording. *)
Lemma grayscale_frames_previewing :
  frameRing (fst (fst (sampleBody (delivered pixel 5) entered previewing)))
  = CircularBuffer.push_back (sampleScale (sampleGray pixel) 1 0) (frameRing previewing)
  /\ minFluor (fst (fst (sampleBody (delivered pixel 5) entered previewing)))
     = fst (sampleExtrema (sampleGray pixel))
  /\ maxFluor (fst (fst (sampleBody (delivered pixel 5) entered previewing)))
     = snd (sampleExtrema (sampleGray pixel))
  /\ encodedFrames (fst (fst (sampleBody (delivered pixel 5) entered previewing)))
     = encodedFrames previewing.
Proof.
  exact (grayscale_frames sampleTrigger placeholder sampleGray sampleExtrema sampleScale
           (delivered pixel 5) entered pixel previewing
           eq_refl eq_refl eq_refl eq_refl eq_refl eq_refl).
Defined.

(** X8, with the red channel hidden and the encoder started. *)
Lemma hidden_red_zeroed_for_encoder :
  frameRing (fst (fst (sampleBody (delivered pixel 5) encoding (colouring false true))))
  = CircularBuffer.push_back pixel (frameRing (colouring false true))
  /\ exists calls,
      recorderCalls (fst (fst (sampleBody (delivered pixel 5) encoding (colouring false true))))
      = calls ++ [EncodeFrame (masked pixel false true true)].
Proof.
  exact (hidden_channels_zeroed_for_encoder sampleTrigger placeholder sampleGray
           sampleExtrema sampleScale (delivered pixel 5) encoding pixel
           (colouring false true) eq_refl eq_refl eq_refl eq_refl eq_refl eq_refl).
Defined.

(** X9, on the controller [previewing] set to record, with an encoder that does not
    start. *)
Lemma encoder_start_failure_no_codec :
  failed (samplePass (unencodable pixel 5) (set_recording true previewing)) = true
  /\ running (samplePass (unencodable pixel 5) (set_recording true previewing)) = false
  /\ capturing (samplePass (unencodable pixel 5) (set_recording true previewing)) = false
  /\ lastMessage (samplePass (unencodable pixel 5) (set_recording true previewing))
     = Some "Unable to initialize recording: no codec"%string
  /\ frameRing (samplePass (unencodable pixel 5) (set_recording true previewing))
     = frameRing previewing.
Proof.
  destruct (encoder_start_failure sampleTrigger placeholder sampleGray sampleExtrema
              sampleScale pixel "no codec"%string (unencodable pixel 5)
              (set_recording true previewing)
              eq_refl eq_refl eq_refl eq_refl (or_intror (conj eq_refl eq_refl))
              eq_refl eq_refl eq_refl)
    as (Hfail & Hrun & _ & Hcap & Hmsg & Hring & _).
  split; [exact Hfail |]. split; [exact Hrun |]. split; [exact Hcap |].
  split; [exact Hmsg | exact Hring].
Defined.

(** X10, on a frame retrieved 50 ms after the loop was entered: 20 frames a second. *)
Lemma currentFPS_is_quotient_50ms :
  currentFPS (samplePass (delivered pixel 50000000) previewing) = Some 20.
Proof.
  refine (currentFPS_is_quotient sampleTrigger placeholder sampleGray sampleExtrema
            sampleScale pixel (delivered pixel 50000000) entered previewing
            eq_refl eq_refl eq_refl eq_refl eq_refl _).
  change (milliseconds (currentTime entered) (clock (delivered pixel 50000000))) with 50.
  lia.
Defined.

(** X11, on the constructed controller. *)
Lemma connect_initializes_fresh :
  sent (cam (snd (connect sampleSetup true init)))
  = [(CV_CAP_PROP_SATURATION, Num.to_double sampleSetup);
     (CV_CAP_PROP_BRIGHTNESS, 1%float);
     (CV_CAP_PROP_GAIN, PrimFloat.div (Num.to_double 32) (Num.to_double 100));
     (CV_CAP_PROP_HUE, 0%float)]
  /\ exposure (snd (connect sampleSetup true init)) = 100
  /\ gain (snd (connect sampleSetup true init)) = 32
  /\ excitation (snd (connect sampleSetup true init)) = 1
  /\ lastMessage (snd (connect sampleSetup true init)) = Some "Initialized camera 0"%string.
Proof.
  exact (connect_initializes sampleSetup true init eq_refl).
Defined.

(** X13, on the controller [previewing]: the thread in its loop is joined and a new one
    entered at clock 4. *)
Lemma run_starts_fresh_thread_previewing :
  fst (run sampleSetup true 4 previewing) = true
  /\ running (snd (run sampleSetup true 4 previewing)) = true
  /\ thread (snd (run sampleSetup true 4 previewing))
     = Some {| currentTime := 4; previousTime := 4; vwriter := fresh;
               recordFrames := false; finished := false |}
  /\ droppedFramesCount (snd (run sampleSetup true 4 previewing)) = 0
  /\ MiniScopeData.recording (snd (run sampleSetup true 4 previewing)) = false
  /\ recorderCalls (snd (run sampleSetup true 4 previewing)) = [Finalize].
Proof.
  exact (run_starts_fresh_thread sampleSetup true 4 previewing eq_refl eq_refl).
Defined.

(** X14, on the controller [previewing], once with a file name and once without. *)
Lemma startRecording_file_previewing :
  (videoFname (snd (startRecording sampleSetup "a.mkv" true 0 9 previewing)) = "a.mkv"%string
   /\ recordStart (snd (startRecording sampleSetup "a.mkv" true 0 9 previewing)) = 9)
  /\ videoFname (snd (startRecording sampleSetup "" true 0 9 previewing))
     = videoFname previewing.
Proof.
  destruct (startRecording_file sampleSetup "a.mkv" true 0 9 previewing eq_refl)
    as (Hname & Hstart & _).
  destruct (startRecording_file sampleSetup EmptyString true 0 9 previewing eq_refl)
    as (Hkept & _).
  split; [split; [exact Hname | exact Hstart] | exact Hkept].
Defined.

(** X15, on the controller [broken]. *)
Lemma startRecording_on_failed_broken :
  fst (startRecording sampleSetup "a.mkv" true 0 9 broken) = false
  /\ MiniScopeData.recording (snd (startRecording sampleSetup "a.mkv" true 0 9 broken)) = false
  /\ running (snd (startRecording sampleSetup "a.mkv" true 0 9 broken)) = false.
Proof.
  exact (startRecording_on_failed sampleSetup "a.mkv" true 0 9 broken
           eq_refl eq_refl eq_refl).
Defined.

(** X18, on the controller [previewing]: disconnecting, stopping and a failed grab
    leave [connected] set. *)
Lemma connected_is_never_cleared_previewing :
  connected (sampleSteps [Disconnect; Stop; Run true 3; Pass ungrabbed] previewing) = true.
Proof.
  exact (connected_is_never_cleared sampleSetup sampleTrigger placeholder sampleGray
           sampleExtrema sampleScale [Disconnect; Stop; Run true 3; Pass ungrabbed]
           previewing eq_refl).
Defined.

(** X23, on the frames numbered 0 to 65 pushed into a fresh controller: the frames 2
    to 65 come out in order, then two empty matrices. *)
Lemma frames_read_in_order_66 :
  fst (takeFrames 66 (pushFrames (map numbered (seq 0 66)) init))
  = map numbered (seq 2 64) ++ [Cv.empty; Cv.empty]
  /\ CircularBuffer.size
       (frameRing (snd (takeFrames 66 (pushFrames (map numbered (seq 0 66)) init)))) = 0%nat.
Proof.
  exact (frames_read_in_order (map numbered (seq 0 66)) init eq_refl).
Defined.

End MiniScope.
